(** * TLCAttendance: a model of the attendance script and its properties

    The script [TLCAttendance.py] resolves its configuration, loads a roster
    from a spreadsheet, logs into the Trail Life Connect portal and ticks one
    checkbox per attendee.  Everything it does is an interaction with its
    surroundings (terminal, files, a browser session), so the model is a
    state-and-exception monad over

    - the [TLCAttendance] object (record [TLC]), and
    - the [World]: the chronological [trace] of everything the script did to
      its surroundings, the keyboard cursor, the config file and the browser.

    What the surroundings answer (typed lines, file contents, what the portal
    shows and when) is fixed by an [Env], over which all theorems quantify.
    Durations are rational numbers of seconds. *)

From Stdlib Require Import QArith Ascii.
From stdpp Require Import gmap strings list fin_maps pretty.

Open Scope string_scope.
Open Scope list_scope.

(** ** Python values and exceptions *)

(** Cell values as [openpyxl] hands them out ([float] and date cells are
    left out). [VNone] is the value of an empty cell. *)
Inductive CellValue :=
| VNone
| VStr (s : string)
| VInt (z : Z)
| VBool (b : bool).

(** [str(v)], which is what an f-string applies to [{v}]. *)
Definition str (v : CellValue) : string :=
  match v with
  | VNone => "None"
  | VStr s => s
  | VInt z => pretty z
  | VBool true => "True"
  | VBool false => "False"
  end.

(** [{v}] in an f-string for a value that is a string or [None]. *)
Definition fmt (v : option string) : string :=
  match v with
  | Some s => s
  | None => "None"
  end.

Definition empty_cell (v : CellValue) : bool :=
  match v with
  | VNone => true
  | _ => false
  end.

Definition non_empty_cells (cells : list CellValue) : nat :=
  length (filter (fun v => empty_cell v = false) cells).

Definition empty_cells (cells : list CellValue) : nat :=
  length (filter (fun v => empty_cell v = true) cells).

(** [s.lower()], on the ASCII letters *)
Definition lower_ascii (c : ascii) : ascii :=
  let n := nat_of_ascii c in
  if (65 <=? n)%nat && (n <=? 90)%nat then ascii_of_nat (n + 32) else c.

Fixpoint lower (s : string) : string :=
  match s with
  | EmptyString => EmptyString
  | String c r => String (lower_ascii c) (lower r)
  end.

(** The exceptions of the script's libraries that matter here; the last
    ones are what [load_workbook] and [ConfigParser.read] raise at a file
    they cannot make anything of. *)
Inductive Exn :=
| TimeoutException
| NoSuchElementException
| UnexpectedTagNameException
| AttributeError (name : string)
| KeyError (key : string)
| NoSectionError (section : string)
| NoOptionError (option : string)
| ValueError (what : string)
| InterpolationSyntaxError (option section : string)
| InterpolationMissingOptionError (option section reference : string)
| InterpolationDepthError (option section : string)
| FileNotFoundError (path : string)
| InvalidFileException (path : string)
| BadZipFile (path : string)
| OSError (path : string)
| MissingSectionHeaderError (source : string)
| ParsingError (source : string)
| DuplicateSectionError (section : string)
| DuplicateOptionError (section option : string)
| UnicodeDecodeError.

(** Outcome of a computation: a value, an exception that propagates, or
    [Diverge] when a [while] loop did not finish within the fuel given. *)
Inductive Res (A : Type) :=
| Ok (a : A)
| Raise (e : Exn)
| Diverge.
Arguments Ok {A} a.
Arguments Raise {A} e.
Arguments Diverge {A}.

(** ** configparser.ConfigParser

    The parser is its two dictionaries: [_defaults] (the [DEFAULT] section)
    and [_sections].  Option names go through [optionxform] (lower case);
    an option of [DEFAULT] is visible from every section.  Values pass
    through [BasicInterpolation]: checked when set, expanded when got. *)
Module configparser.

Record ConfigParser := {
  _defaults : gmap string string;
  _sections : gmap string (gmap string string)
}.

Definition empty : ConfigParser :=
  {| _defaults := ∅; _sections := ∅ |}.

Definition default_section : string := "DEFAULT".

(** [optionxform(optionstr)] is [optionstr.lower()]. *)
Definition optionxform (s : string) : string := lower s.

Definition has_section (cp : ConfigParser) (section : string) : bool :=
  bool_decide (is_Some (_sections cp !! section)).

(** [section in cp] *)
Definition contains (cp : ConfigParser) (section : string) : bool :=
  bool_decide (section = default_section) || has_section cp section.

(** [not section or section == self.default_section] *)
Definition names_defaults (section : string) : bool :=
  bool_decide (section = "") || bool_decide (section = default_section).

(** [cp[section] = {}]: clears the section, creating it when absent. *)
Definition setitem_empty (cp : ConfigParser) (section : string) : ConfigParser :=
  if bool_decide (section = default_section)
  then {| _defaults := ∅; _sections := _sections cp |}
  else {| _defaults := _defaults cp;
          _sections := <[section := ∅]> (_sections cp) |}.

Definition has_option (cp : ConfigParser) (section option : string) : bool :=
  if names_defaults section
  then bool_decide (is_Some (_defaults cp !! optionxform option))
  else match _sections cp !! section with
       | None => false
       | Some d =>
           bool_decide (is_Some (d !! optionxform option))
           || bool_decide (is_Some (_defaults cp !! optionxform option))
       end.

(** ['%' in s] *)
Fixpoint contains_percent (s : string) : bool :=
  match s with
  | EmptyString => false
  | String c r => bool_decide (c = "%"%char) || contains_percent r
  end.

(** [s.replace('%%', '')] *)
Fixpoint drop_escaped_percents (s : string) : string :=
  match s with
  | String c1 (String c2 r as t) =>
      if bool_decide (c1 = "%"%char) && bool_decide (c2 = "%"%char)
      then drop_escaped_percents r
      else String c1 (drop_escaped_percents t)
  | _ => s
  end.

(** The text before the first [)] of [s], and the text after it. *)
Fixpoint up_to_paren (s : string) : option (string * string) :=
  match s with
  | EmptyString => None
  | String c r =>
      if bool_decide (c = ")"%char) then Some (EmptyString, r)
      else match up_to_paren r with
           | Some (name, after) => Some (String c name, after)
           | None => None
           end
  end.

(** [_KEYCRE.match("%(" + s)], with [_KEYCRE] the pattern
    [%\(([^)]+)\)s]: the name referred to, when [s] starts with a
    non-empty text free of [)] that [)s] follows. *)
Definition key_reference (s : string) : option string :=
  match up_to_paren s with
  | Some (String c name, String c' _) =>
      if bool_decide (c' = "s"%char) then Some (String c name) else None
  | _ => None
  end.

(** [_KEYCRE.sub('', s)]: [s] without its references [%(name)s].  The
    first [skip] characters of [s] belong to a reference already found. *)
Fixpoint drop_references (skip : nat) (s : string) : string :=
  match s with
  | EmptyString => EmptyString
  | String c r =>
      match skip with
      | S n => drop_references n r
      | O =>
          match (if bool_decide (c = "%"%char) then
                   match r with
                   | String c' t =>
                       if bool_decide (c' = "("%char) then key_reference t
                       else None
                   | EmptyString => None
                   end
                 else None) with
          | Some name => drop_references (String.length name + 3) r
          | None => String c (drop_references 0 r)
          end
      end
  end.

(** [BasicInterpolation.before_set]: a [%] that is neither doubled nor
    the start of a reference is refused. *)
Definition before_set (value : string) : Res string :=
  let tmp_value := drop_references 0 (drop_escaped_percents value) in
  if contains_percent tmp_value then Raise (ValueError value) else Ok value.

(** [ConfigParser.set(section, option, value)] *)
Definition set (cp : ConfigParser) (section option value : string)
  : Res ConfigParser :=
  match (if bool_decide (value = "") then Ok value
         else before_set value) with
  | Ok value =>
      if names_defaults section
      then Ok {| _defaults := <[optionxform option := value]> (_defaults cp);
                 _sections := _sections cp |}
      else match _sections cp !! section with
           | None => Raise (NoSectionError section)
           | Some d =>
               Ok {| _defaults := _defaults cp;
                     _sections :=
                       <[section := <[optionxform option := value]> d]>
                         (_sections cp) |}
           end
  | Raise e => Raise e
  | Diverge => Diverge
  end.

(** [cp[section][option] = value]: [cp[section]] is looked up first. *)
Definition setitem (cp : ConfigParser) (section option value : string)
  : Res ConfigParser :=
  if negb (contains cp section) then Raise (KeyError section)
  else set cp section option value.

(** The section's own dictionary in front of the defaults
    ([_unify_values]). *)
Definition unify_values (cp : ConfigParser) (section : string)
  : Res (gmap string string) :=
  match _sections cp !! section with
  | Some d => Ok (d ∪ _defaults cp)
  | None =>
      if bool_decide (section = default_section)
      then Ok (_defaults cp)
      else Raise (NoSectionError section)
  end.

Definition MAX_INTERPOLATION_DEPTH : nat := 10.

Definition and_then_res {A B} (r : Res A) (k : A -> Res B) : Res B :=
  match r with
  | Ok a => k a
  | Raise e => Raise e
  | Diverge => Diverge
  end.

(** [BasicInterpolation._interpolate_some], yielding what it appends to
    [accum]: [%%] becomes [%], a reference [%(name)s] becomes the value
    that [map] has for the name, itself expanded when it contains a [%];
    any other [%] is a syntax error.  [levels] is the number of levels of
    expansion still allowed; the first [skip] characters of [rest] belong
    to an escape or a reference already dealt with. *)
Fixpoint interpolate_some (levels : nat) (map : gmap string string)
    (option section rest : string) : Res string :=
  match levels with
  | O => Raise (InterpolationDepthError option section)
  | S levels' =>
      (fix loop (skip : nat) (rest : string) {struct rest} : Res string :=
         match rest with
         | EmptyString => Ok EmptyString
         | String c r =>
             match skip with
             | S n => loop n r
             | O =>
                 if negb (bool_decide (c = "%"%char)) then
                   and_then_res (loop 0 r) (fun out => Ok (String c out))
                 else
                   match r with
                   | String c' t =>
                       if bool_decide (c' = "%"%char) then
                         and_then_res (loop 1 r)
                           (fun out => Ok (String "%"%char out))
                       else if bool_decide (c' = "("%char) then
                         match key_reference t with
                         | Some name =>
                             match map !! optionxform name with
                             | Some v =>
                                 and_then_res
                                   (if contains_percent v
                                    then interpolate_some levels' map
                                           option section v
                                    else Ok v)
                                   (fun out1 =>
                                      and_then_res
                                        (loop (String.length name + 3) r)
                                        (fun out2 => Ok (out1 +:+ out2)))
                             | None =>
                                 Raise (InterpolationMissingOptionError
                                          option section (optionxform name))
                             end
                         | None =>
                             Raise (InterpolationSyntaxError option section)
                         end
                       else Raise (InterpolationSyntaxError option section)
                   | EmptyString =>
                       Raise (InterpolationSyntaxError option section)
                   end
             end
         end) 0 rest
  end.

(** [ConfigParser.get(section, option)] *)
Definition get (cp : ConfigParser) (section option : string) : Res string :=
  match unify_values cp section with
  | Ok d =>
      match d !! optionxform option with
      | Some v =>
          interpolate_some MAX_INTERPOLATION_DEPTH d (optionxform option)
            section v
      | None => Raise (NoOptionError option)
      end
  | Raise e => Raise e
  | Diverge => Diverge
  end.

(** [cp[section][option]] *)
Definition getitem (cp : ConfigParser) (section option : string)
  : Res string :=
  if negb (contains cp section) then Raise (KeyError section)
  else if negb (has_option cp section option) then Raise (KeyError option)
  else get cp section option.

End configparser.
Export configparser.

(** ** Spreadsheets, pages and the browser *)

(** A worksheet is the column [openpyxl] yields for [sheet['A']]: one cell
    per row from row 1 to the last used row of the sheet, an empty cell
    carrying [VNone]. *)
Record Worksheet := { column_A : list CellValue }.

(** A workbook: its sheets by title, in file order. *)
Definition Workbook := list (string * Worksheet).

Definition sheetnames (wb : Workbook) : list string := wb.*1.

(** [wb[name]] *)
Fixpoint sheet_by_name (wb : Workbook) (name : string) : option Worksheet :=
  match wb with
  | [] => None
  | (title, ws) :: rest =>
      if bool_decide (title = name) then Some ws else sheet_by_name rest name
  end.

Inductive By := ID | NAME | CLASS_NAME | XPATH.

(** A located element, or the parent reached with the XPath [..]. *)
Inductive Element :=
| Node (ref : string)
| ParentOf (child : Element).

(** What the browser shows at one moment. *)
Record Page := {
  locate : By -> string -> option Element;
  clickable_after : By -> string -> option Q;
  tag_name : Element -> string;
  value_attribute : Element -> option string;
  selected_option : Element -> option Element
}.

Inductive Driver := Firefox | Chrome | Edge.

(** [driver.capabilities['browserName']] *)
Definition browserName (d : Driver) : string :=
  match d with
  | Firefox => "firefox"
  | Chrome => "chrome"
  | Edge => "msedge"
  end.

Inductive Action :=
| move_to_element (e : Element)
| pause (secs : Q)
| click (e : Element)
| send_keys (text : string).

(** Everything the script does to its surroundings. *)
Inductive Event :=
| Print (line : string)
| LogInfo (line : string)
| Prompt (text : string)
| GetPass (text : string)
| WriteConfig (path : string) (cp : ConfigParser)
| LoadWorkbook (path : string)
| CloseWorkbook
| Launch (d : Driver)
| Navigate (url : string)
| Find (by_ : By) (sel : string)
| FindParent (e : Element)
| WaitUntil (secs : Q)
| ElementSendKeys (e : Element) (text : string)
| ElementClick (e : Element)
| ScrollIntoView (e : Element)
| Perform (a : Action)
| Sleep (secs : Q)
| DriverClose
| DriverQuit.

(** The elements looked up, in order. *)
Definition lookups (evs : list Event) : list (By * string) :=
  flat_map (fun e => match e with Find by_ sel => [(by_, sel)] | _ => [] end)
    evs.

(** Clicks, scrolls and chained pointer actions. *)
Definition pointer_action (e : Event) : bool :=
  match e with
  | ElementClick _ | ScrollIntoView _ | Perform _ => true
  | _ => false
  end.

(** How the portal answers one press of the login button: after
    [resp_delay] seconds the browser is at [resp_url], with or without the
    error indicator shown. *)
Record Response := {
  resp_delay : Q;
  resp_url : string;
  resp_error : bool
}.

Record Args := {
  filename : string;
  event : string;
  log : string;
  config_path : string
}.

(** What is at the config path.  [ReadsAs cp]: a file that
    [ConfigParser.read] accepts, and [cp] is what it makes of it.
    [Malformed e]: a file at which [read] raises [e].  [WrittenFrom cp]:
    the text that [cp.write] produced; reading it again is not the
    identity (values come back stripped, section names do not), and what
    it gives is left to [read_back] of the surroundings. *)
Inductive ConfigFile :=
| ReadsAs (cp : ConfigParser)
| Malformed (e : Exn)
| WrittenFrom (cp : ConfigParser).

(** The surroundings of one run.  [workbook_at path] is the workbook that
    [load_workbook] makes of the file at [path], when it makes one, and
    [load_error path] is what it raises otherwise (no such file, not a
    zip archive, an extension that is refused, ...). *)
Record Env := {
  argv_filename : string;
  argv_event : string;
  argv_log : option string;
  argv_config : option string;
  keyboard : nat -> string;
  tty_password : string;
  workbook_at : string -> option Workbook;
  load_error : string -> Exn;
  read_back : ConfigParser -> Exn + ConfigParser;
  float : string -> option Q;
  site : string -> string * Page;
  login_response : nat -> option Response;
  react : Event -> Page -> Page
}.

(** ** The object, the world and the monad *)

(** The [TLCAttendance] object.  [args] and [driver] exist from [__init__]
    on; the other attributes appear when a method first assigns them:
    [attrs] holds the string-valued ones ([server], [browser], [sheetName],
    [email], [initial_wait_secs] set through [setattr], and the URLs). *)
Record TLC := {
  args : Args;
  driver : option Driver;
  attrs : gmap string string;
  config : option ConfigParser;
  configChanged : option bool;
  attendees : option (list CellValue)
}.

(** The surroundings as they stand: what the script has done so far
    ([trace], oldest first), how many lines the operator has typed, the
    content of the config file ([None]: no such file), the URL and the page
    the browser shows, and how many times the post-login wait was
    entered. *)
Record World := {
  trace : list Event;
  stdin_pos : nat;
  disk_config : option ConfigFile;
  current_url : string;
  page : Page;
  submissions : nat
}.

Record Sys := { obj : TLC; world : World }.

Definition M (A : Type) : Type := Sys -> Res A * Sys.

Definition ret {A} (a : A) : M A := fun s => (Ok a, s).

Definition bind {A B} (m : M A) (k : A -> M B) : M B :=
  fun s =>
    match m s with
    | (Ok a, s') => k a s'
    | (Raise e, s') => (Raise e, s')
    | (Diverge, s') => (Diverge, s')
    end.

#[export] Instance M_ret : MRet M := @ret.
#[export] Instance M_bind : MBind M := fun A B k m => bind m k.

Definition raise {A} (e : Exn) : M A := fun s => (Raise e, s).
Definition diverge {A} : M A := fun s => (Diverge, s).

Definition lift {A} (r : Res A) : M A := fun s => (r, s).

(** [try: m  except TimeoutException: h] *)
Definition except_TimeoutException {A} (m h : M A) : M A :=
  fun s =>
    match m s with
    | (Raise TimeoutException, s') => h s'
    | other => other
    end.

Definition self : M TLC := fun s => (Ok (obj s), s).
Definition the_world : M World := fun s => (Ok (world s), s).
Definition put_obj (o : TLC) : M unit :=
  fun s => (Ok tt, {| obj := o; world := world s |}).
Definition put_world (w : World) : M unit :=
  fun s => (Ok tt, {| obj := obj s; world := w |}).

Definition with_trace (t : list Event) (w : World) : World :=
  {| trace := t; stdin_pos := stdin_pos w; disk_config := disk_config w;
     current_url := current_url w; page := page w;
     submissions := submissions w |}.

Definition with_page (url : string) (p : Page) (w : World) : World :=
  {| trace := trace w; stdin_pos := stdin_pos w; disk_config := disk_config w;
     current_url := url; page := p; submissions := submissions w |}.

Definition emit (e : Event) : M unit :=
  w ← the_world; put_world (with_trace (trace w ++ [e]) w).

Definition print (line : string) : M unit := emit (Print line).
Definition logging_info (line : string) : M unit := emit (LogInfo line).
Definition sleep (secs : Q) : M unit := emit (Sleep secs).

(** [self.<name>] for a string attribute *)
Definition getattr (name : string) : M string :=
  o ← self;
  match attrs o !! name with
  | Some v => ret v
  | None => raise (AttributeError name)
  end.

Definition setattr (name value : string) : M unit :=
  o ← self;
  put_obj {| args := args o; driver := driver o;
             attrs := <[name := value]> (attrs o); config := config o;
             configChanged := configChanged o; attendees := attendees o |}.

Definition self_config : M ConfigParser :=
  o ← self;
  match config o with
  | Some cp => ret cp
  | None => raise (AttributeError "config")
  end.

Definition set_config (cp : ConfigParser) : M unit :=
  o ← self;
  put_obj {| args := args o; driver := driver o; attrs := attrs o;
             config := Some cp; configChanged := configChanged o;
             attendees := attendees o |}.

Definition self_configChanged : M bool :=
  o ← self;
  match configChanged o with
  | Some b => ret b
  | None => raise (AttributeError "configChanged")
  end.

Definition set_configChanged (b : bool) : M unit :=
  o ← self;
  put_obj {| args := args o; driver := driver o; attrs := attrs o;
             config := config o; configChanged := Some b;
             attendees := attendees o |}.

Definition self_attendees : M (list CellValue) :=
  o ← self;
  match attendees o with
  | Some l => ret l
  | None => raise (AttributeError "attendees")
  end.

Definition set_attendees (l : list CellValue) : M unit :=
  o ← self;
  put_obj {| args := args o; driver := driver o; attrs := attrs o;
             config := config o; configChanged := configChanged o;
             attendees := Some l |}.

Definition set_driver (d : option Driver) : M unit :=
  o ← self;
  put_obj {| args := args o; driver := d; attrs := attrs o;
             config := config o; configChanged := configChanged o;
             attendees := attendees o |}.

(** [self.driver.<method>]: fails on [None] *)
Definition self_driver (method : string) : M Driver :=
  o ← self;
  match driver o with
  | Some d => ret d
  | None => raise (AttributeError method)
  end.

Definition ID_LESSON_PLAN_CBOX : string := "use-lesson-plans".
Definition ID_EVENT_SELECTION : string := "select2-event-id-container".
Definition CLS_EVENT_SEARCH : string := "select2-search__field".

(** [Keys.ENTER], the code point U+E007 in UTF-8 *)
Definition Keys_ENTER : string :=
  String (ascii_of_nat 238) (String (ascii_of_nat 128)
    (String (ascii_of_nat 135) EmptyString)).

(** [needle in hay] on strings *)
Definition substring_in (needle hay : string) : bool :=
  match String.index 0 needle hay with
  | Some _ => true
  | None => false
  end.

(** ** The script *)

Section Script.

Variable env : Env.

(** *** Terminal, files and browser primitives *)

(** [input(prompt)]: shows the prompt and takes the next typed line. *)
Definition input (prompt : string) : M string :=
  w ← the_world;
  put_world
    {| trace := trace w ++ [Prompt prompt]; stdin_pos := S (stdin_pos w);
       disk_config := disk_config w; current_url := current_url w;
       page := page w; submissions := submissions w |};;
  ret (keyboard env (stdin_pos w)).

Definition getpass (prompt : string) : M string :=
  emit (GetPass prompt);; ret (tty_password env).

(** What [ConfigParser().read(path)] gives: a file that does not exist
    is skipped. *)
Definition read_file (file : option ConfigFile) : Res ConfigParser :=
  match file with
  | None => Ok configparser.empty
  | Some (ReadsAs cp) => Ok cp
  | Some (Malformed e) => Raise e
  | Some (WrittenFrom cp) =>
      match read_back env cp with
      | inr cp' => Ok cp'
      | inl e => Raise e
      end
  end.

(** [self.config = configparser.ConfigParser()] and
    [self.config.read(self.args.config)] *)
Definition config_read : M unit :=
  set_config configparser.empty;;
  w ← the_world;
  cp ← lift (read_file (disk_config w));
  set_config cp.

(** [with open(path, 'w') as f: self.config.write(f)] *)
Definition config_write : M unit :=
  o ← self;
  cp ← self_config;
  w ← the_world;
  put_world
    {| trace := trace w ++ [WriteConfig (config_path (args o)) cp];
       stdin_pos := stdin_pos w; disk_config := Some (WrittenFrom cp);
       current_url := current_url w; page := page w;
       submissions := submissions w |}.

Definition load_workbook (path : string) : M Workbook :=
  emit (LoadWorkbook path);;
  match workbook_at env path with
  | Some wb => ret wb
  | None => raise (load_error env path)
  end.

(** The page answers a stimulus. *)
Definition stimulate (e : Event) : M unit :=
  emit e;;
  w ← the_world;
  put_world (with_page (current_url w) (react env e (page w)) w).

Definition driver_get (url : string) : M unit :=
  self_driver "get";;
  emit (Navigate url);;
  w ← the_world;
  put_world (with_page (site env url).1 (site env url).2 w).

Definition driver_current_url : M string :=
  self_driver "current_url";;
  w ← the_world;
  ret (current_url w).

Definition find_element (by_ : By) (sel : string) : M Element :=
  self_driver "find_element";;
  emit (Find by_ sel);;
  w ← the_world;
  match locate (page w) by_ sel with
  | Some e => ret e
  | None => raise NoSuchElementException
  end.

(** [element.find_element(By.XPATH, '..')] *)
Definition find_parent (e : Element) : M Element :=
  emit (FindParent e);; ret (ParentOf e).

(** [element.get_attribute('value')] *)
Definition get_attribute_value (e : Element) : M (option string) :=
  w ← the_world; ret (value_attribute (page w) e).

Definition element_send_keys (e : Element) (text : string) : M unit :=
  stimulate (ElementSendKeys e text).

Definition element_click (e : Element) : M unit :=
  stimulate (ElementClick e).

(** [ActionChains(...).perform()] on the queued actions *)
Fixpoint perform (actions : list Action) : M unit :=
  match actions with
  | [] => ret tt
  | a :: rest => stimulate (Perform a);; perform rest
  end.

(** [WebDriverWait(self.driver, timeout)] stores [float(timeout)]. *)
Definition WebDriverWait (timeout : string) : M Q :=
  match float env timeout with
  | Some secs => ret secs
  | None => raise (ValueError timeout)
  end.

(** [wait.until(EC.element_to_be_clickable((by, sel)))] *)
Definition until_clickable (secs : Q) (by_ : By) (sel : string) : M Element :=
  emit (WaitUntil secs);;
  w ← the_world;
  match clickable_after (page w) by_ sel, locate (page w) by_ sel with
  | Some d, Some e =>
      if Qle_bool d secs then ret e else raise TimeoutException
  | _, _ => raise TimeoutException
  end.

(** [wait.until(EC.any_of(visibility of the error block,
    EC.url_to_be(dashboard)))] after a press of the login button: the
    portal's answer to this press arrives after its delay; the wait
    returns when that is within [secs] and the answer shows the error
    block or the dashboard URL. *)
Definition until_error_or_dashboard (secs : Q) (dashboard : string) : M unit :=
  emit (WaitUntil secs);;
  w ← the_world;
  put_world
    {| trace := trace w; stdin_pos := stdin_pos w;
       disk_config := disk_config w; current_url := current_url w;
       page := page w; submissions := S (submissions w) |};;
  match login_response env (submissions w) with
  | Some r =>
      if Qle_bool (resp_delay r) secs then
        w ← the_world;
        put_world (with_page (resp_url r) (site env (resp_url r)).2 w);;
        if resp_error r || bool_decide (resp_url r = dashboard)
        then ret tt
        else raise TimeoutException
      else raise TimeoutException
  | None => raise TimeoutException
  end.

(** *** Methods of [TLCAttendance] *)

Definition __init__ : M unit :=
  let a := {| filename := argv_filename env;
              event := argv_event env;
              log := default "./TLCAttendance.log" (argv_log env);
              config_path := default "./.config.ini" (argv_config env) |} in
  put_obj {| args := a; driver := None; attrs := ∅; config := None;
             configChanged := None; attendees := None |};;
  logging_info ("Using attendance file: " +:+ filename a);;
  logging_info ("Using log file: " +:+ log a);;
  logging_info ("Using config file: " +:+ config_path a).

Definition __del__ : M unit :=
  o ← self;
  match driver o with
  | Some _ => emit DriverQuit
  | None => ret tt
  end.

Definition readConfigItem (section fieldName promptStr defaultValue : string)
  : M unit :=
  cp ← self_config;
  (if negb (contains cp section)
   then set_config (setitem_empty cp section)
   else ret tt);;
  cp ← self_config;
  (if negb (has_option cp section fieldName) then
     logging_info
       ("Config file missing [" +:+ section +:+ "] " +:+ fieldName);;
     line ← input promptStr;
     value ← (if bool_decide (line = "") then
                logging_info
                  ("No value provided for [" +:+ section +:+ "] "
                   +:+ fieldName +:+ ", using " +:+ defaultValue);;
                ret defaultValue
              else ret line);
     cp ← self_config;
     cp' ← lift (setitem cp section fieldName value);
     set_config cp';;
     set_configChanged true
   else ret tt);;
  cp ← self_config;
  v ← lift (getitem cp section fieldName);
  setattr fieldName v.

Definition setURLs : M unit :=
  server ← getattr "server";
  setattr "BASE_URL" ("https://" +:+ server +:+ "/");;
  base ← getattr "BASE_URL";
  setattr "DASHBOARD_URL" (base +:+ "dashboard");;
  base ← getattr "BASE_URL";
  setattr "LOGIN_URL" (base +:+ "login").

Definition readConfig : M unit :=
  set_configChanged false;;
  config_read;;
  readConfigItem "DEFAULT" "server" "Trail Life Connect website: "
    "www.traillifeconnect.com";;
  setURLs;;
  readConfigItem "DEFAULT" "browser"
    "Web browser to use (Firefox, Chrome, Edge): " "Firefox";;
  readConfigItem "DEFAULT" "sheetName" "Attendance sheet name: "
    "Attendance";;
  server ← getattr "server";
  readConfigItem server "email" "Trail Life Connect username: "
    "user@example.com";;
  server ← getattr "server";
  readConfigItem server "initial_wait_secs"
    "Time to wait for website in seconds: " "30";;
  changed ← self_configChanged;
  if (changed : bool) then
    o ← self;
    logging_info
      ("Writing changes to config file " +:+ config_path (args o));;
    config_write
  else ret tt.

Definition getDriver : M unit :=
  browser ← getattr "browser";
  let d := if bool_decide (browser = "Firefox") then Firefox
           else if bool_decide (browser = "Chrome") then Chrome
           else if bool_decide (browser = "Edge") then Edge
           else Firefox in
  emit (Launch d);;
  set_driver (Some d).

Definition scrollFirefox (element : Element) : M unit :=
  self_driver "execute_script";;
  stimulate (ScrollIntoView element).

(** The [while not loginComplete] loop of [login]; one unit of fuel per
    test of the loop condition.  The result is the value [login]
    returns. *)
Fixpoint login_while (fuel : nat) (tlcPass : string) (loginBtn : Element)
    (loginComplete : bool) : M bool :=
  match fuel with
  | O => diverge
  | S fuel' =>
      if negb loginComplete then
        passField ← find_element ID "loginform-password";
        element_send_keys passField tlcPass;;
        element_click loginBtn;;
        dashboard ← getattr "DASHBOARD_URL";
        settled ← except_TimeoutException
                    (until_error_or_dashboard 10 dashboard;; ret true)
                    (ret false);
        if negb (settled : bool) then
          url ← driver_current_url;
          print ("ERROR: Login failed " +:+ url);;
          ret false
        else
          url ← driver_current_url;
          dashboard ← getattr "DASHBOARD_URL";
          if bool_decide (url = dashboard) then
            login_while fuel' tlcPass loginBtn true
          else
            url ← driver_current_url;
            print ("ERROR: Failed to load dashboard after login " +:+ url);;
            ret false
      else ret true
  end.

(** [login] up to its loop: the browser is started, the portal opened and
    the e-mail typed into the form.  Yields the password read and the
    login button. *)
Definition open_login_form : M (string * Element) :=
  email ← getattr "email";
  print ("Username: " +:+ email);;
  server ← getattr "server";
  tlcPass ← getpass ("Password for " +:+ server +:+ ": ");
  getDriver;;
  base ← getattr "BASE_URL";
  driver_get base;;
  timeout ← getattr "initial_wait_secs";
  secs ← WebDriverWait timeout;
  loginBtn ← until_clickable secs NAME "login-button";
  emailField ← find_element ID "loginform-email";
  email ← getattr "email";
  element_send_keys emailField email;;
  ret (tlcPass, loginBtn).

Definition login (fuel : nat) : M bool :=
  form ← open_login_form;
  login_while fuel form.1 form.2 false.

Definition logout : M unit :=
  server ← getattr "server";
  driver_get ("https://" +:+ server +:+ "/logout");;
  self_driver "close";;
  emit DriverClose.

(** [for col in attendanceSheet['A']: self.attendees.append(col.value)] *)
Fixpoint append_cells (cells : list CellValue) : M unit :=
  match cells with
  | [] => ret tt
  | value :: rest =>
      l ← self_attendees;
      set_attendees (l ++ [value]);;
      append_cells rest
  end.

Definition loadAttendanceData : M nat :=
  set_attendees [];;
  o ← self;
  workBook ← load_workbook (filename (args o));
  sheetName ← getattr "sheetName";
  (if bool_decide (sheetName ∈ sheetnames workBook) then
     match sheet_by_name workBook sheetName with
     | Some attendanceSheet =>
         append_cells (column_A attendanceSheet);;
         emit CloseWorkbook
     | None => raise (KeyError sheetName)
     end
   else
     o ← self;
     print ("ERROR: Sheet " +:+ sheetName +:+ " not found in "
            +:+ filename (args o)));;
  l ← self_attendees;
  ret (length l).

Definition attendeeCboxId (attendee : CellValue)
    (selectedEventValue : option string) : string :=
  let endStr := "attended" in
  str attendee +:+ "-" +:+ fmt selectedEventValue +:+ "-" +:+ endStr.

Definition attendeeXPath (attendee : CellValue)
    (selectedEventValue : option string) : string :=
  "//input[@id = '" +:+ attendeeCboxId attendee selectedEventValue +:+ "']".

(** One pass through the body of the [for attendee in self.attendees]
    loop; the result is the new [attendeeCount]. *)
Definition markAttendee (selectedEventValue : option string)
    (attendeeCount : nat) (attendee : CellValue) : M nat :=
  let attendeeCount := S attendeeCount in
  print ("Check attendee: " +:+ str attendee);;
  let attendeeXPath := attendeeXPath attendee selectedEventValue in
  print ("Find attendee by xpath: " +:+ attendeeXPath);;
  attendeeCboxInput ← find_element XPATH attendeeXPath;
  attendeeCboxParent ← find_parent attendeeCboxInput;
  print "Before move to element";;
  attendeeCboxChecked ← get_attribute_value attendeeCboxInput;
  print ("Attendee checkbox value: " +:+ fmt attendeeCboxChecked);;
  (if bool_decide (attendeeCboxChecked = Some "0") then
     d ← self_driver "capabilities";
     (if substring_in "firefox" (browserName d)
      then scrollFirefox attendeeCboxParent
      else ret tt);;
     perform [move_to_element attendeeCboxParent; pause 1;
              click attendeeCboxParent]
   else
     print "Attendee checkbox already checked");;
  ret attendeeCount.

Fixpoint markAttendees (selectedEventValue : option string)
    (attendeeCount : nat) (roster : list CellValue) : M nat :=
  match roster with
  | [] => ret attendeeCount
  | attendee :: rest =>
      attendeeCount ← markAttendee selectedEventValue attendeeCount attendee;
      markAttendees selectedEventValue attendeeCount rest
  end.

(** [Select(element)] refuses anything but a [select] tag. *)
Definition Select (e : Element) : M Element :=
  w ← the_world;
  if bool_decide (lower (tag_name (page w) e) = "select")
  then ret e
  else raise UnexpectedTagNameException.

(** [select.first_selected_option] *)
Definition first_selected_option (select : Element) : M Element :=
  w ← the_world;
  match selected_option (page w) select with
  | Some opt => ret opt
  | None => raise NoSuchElementException
  end.

Definition end_of_loop_summary (attendeeCount : nat)
    (roster : list CellValue) : string :=
  "End track attendance (" +:+ pretty attendeeCount +:+ ", "
  +:+ pretty (length roster) +:+ ")".

(** [recordAttendance] up to its loop: the attendance page is opened,
    the event chosen and the lesson-plan box ticked.  Yields
    [selectedEventValue]. *)
Definition select_event : M (option string) :=
  server ← getattr "server";
  driver_get ("https://" +:+ server +:+ "/attendance");;
  sleep 2;;
  o ← self;
  print ("Select event: " +:+ event (args o));;
  eventIdSelectElement ← find_element ID "event-id";
  eventIdSelect ← Select eventIdSelectElement;
  eventIdClickable ← find_element ID "select2-event-id-container";
  o ← self;
  perform [click eventIdClickable; send_keys (event (args o)); pause 1;
           send_keys Keys_ENTER];;
  option ← first_selected_option eventIdSelect;
  selectedEventValue ← get_attribute_value option;
  print ("Selected option code: " +:+ fmt selectedEventValue);;
  sleep 1;;
  print "Check use lesson plan";;
  useLessonPlansInput ← find_element ID ID_LESSON_PLAN_CBOX;
  lessonPlanChecked ← get_attribute_value useLessonPlansInput;
  print ("Lesson plan checked: " +:+ fmt lessonPlanChecked);;
  (if bool_decide (lessonPlanChecked = Some "0") then
     parent ← find_parent useLessonPlansInput;
     element_click parent;;
     sleep 1
   else ret tt);;
  ret selectedEventValue.

Definition recordAttendance : M unit :=
  selectedEventValue ← select_event;
  roster ← self_attendees;
  attendeeCount ← markAttendees selectedEventValue 0 roster;
  roster ← self_attendees;
  print (end_of_loop_summary attendeeCount roster).

(** [main] up to the test of the roster count. *)
Definition resolve_and_load : M nat :=
  __init__;;
  readConfig;;
  loadAttendanceData.

Definition main (fuel : nat) : M unit :=
  count ← resolve_and_load;
  if bool_decide (count = 0) then
    print "ERROR: No data found in spreadsheet."
  else
    logged_in ← login fuel;
    if (logged_in : bool) then
      sleep 5;;
      loadAttendanceData;;
      recordAttendance;;
      sleep 5;;
      logout
    else ret tt.

(** The whole process: [main()], after which the object is finalized
    whether [main] returned or an exception is on its way out. *)
Definition script (fuel : nat) : M unit :=
  fun s =>
    let (r, s') := main fuel s in
    (r, (__del__ s').2).

End Script.

(** ** Vocabulary of the properties *)

(** [m], from whatever state it starts, ends in a state related to it
    by [R]. *)
Definition preserves {A} (R : Sys -> Sys -> Prop) (m : M A) : Prop :=
  forall s r s', m s = (r, s') -> R s s'.

(** Events of the terminal and of files only: no password prompt and
    nothing that involves a browser. *)
Definition offline_event (e : Event) : bool :=
  match e with
  | Print _ | LogInfo _ | Prompt _ | WriteConfig _ _ | LoadWorkbook _
  | CloseWorkbook | Sleep _ => true
  | _ => false
  end.

(** From [s] to [s'] nothing but offline events happened and the driver
    attribute was not assigned. *)
Definition offline_step (s s' : Sys) : Prop :=
  driver (obj s') = driver (obj s)
  /\ exists evs,
       trace (world s') = trace (world s) ++ evs
       /\ Forall (fun e => offline_event e = true) evs.

(** A press of the login button. *)
Definition submission (e : Event) : bool :=
  match e with
  | ElementClick _ => true
  | _ => false
  end.

Definition attempts (evs : list Event) : nat :=
  length (filter (fun e => submission e = true) evs).

(** The portal's answer brings the browser to [dash] within [secs]
    seconds. *)
Definition reaches_dashboard_within (secs : Q) (dash : string)
    (answer : option Response) : Prop :=
  exists r,
    answer = Some r /\ Qle_bool (resp_delay r) secs = true /\ resp_url r = dash.

(** The timeout of the configuration, as [WebDriverWait] reads it. *)
Definition configured_timeout (env : Env) (s : Sys) : option Q :=
  attrs (obj s) !! "initial_wait_secs" ≫= float env.

(** The lines the operator was prompted with, and the configurations
    written to the config file, in order. *)
Definition prompts (evs : list Event) : list string :=
  flat_map (fun e => match e with Prompt text => [text] | _ => [] end) evs.

Definition rewrites (evs : list Event) : list ConfigParser :=
  flat_map (fun e => match e with WriteConfig _ cp => [cp] | _ => [] end) evs.

(** The option is written in the section itself. *)
Definition listed (cp : ConfigParser) (section option : string) : bool :=
  if bool_decide (section = default_section)
  then bool_decide (is_Some (_defaults cp !! optionxform option))
  else bool_decide
         (is_Some (_sections cp !! section ≫= (.!! optionxform option))).

(** The option is written in the section (one with a proper name) or in
    [DEFAULT]. *)
Definition offers (cp : ConfigParser) (section option : string) : bool :=
  negb (names_defaults section)
  && bool_decide
       (is_Some (_sections cp !! section ≫= (.!! optionxform option)))
  || bool_decide (is_Some (_defaults cp !! optionxform option)).

(** Every option of [cp] is in [cp'], in the same section and with the
    same value. *)
Definition keeps_pairs (cp cp' : ConfigParser) : Prop :=
  (forall k v, _defaults cp !! k = Some v -> _defaults cp' !! k = Some v)
  /\ (forall sec d k v,
        _sections cp !! sec = Some d -> d !! k = Some v ->
        exists d', _sections cp' !! sec = Some d' /\ d' !! k = Some v).



(** [cp], with the section created when it is not there
    ([if section not in self.config: self.config[section] = {}]). *)
Definition ensure (cp : ConfigParser) (section : string) : ConfigParser :=
  if contains cp section then cp else setitem_empty cp section.

(** The elements clicked directly ([element.click()]), in order. *)
Definition clicked_elements (evs : list Event) : list Element :=
  flat_map (fun e => match e with ElementClick x => [x] | _ => [] end) evs.

(** Scrolls and chained pointer actions, in order. *)
Definition pointer_actions (evs : list Event) : list Event :=
  filter (fun e => pointer_action e = true) evs.

(** The browser session is ended ([close], [quit]). *)
Definition ends_session (e : Event) : bool :=
  match e with
  | DriverClose | DriverQuit => true
  | _ => false
  end.

(** The element is on page [p] and becomes clickable within [secs]
    seconds. *)
Definition clickable_within (p : Page) (by_ : By) (sel : string) (secs : Q)
  : bool :=
  match clickable_after p by_ sel, locate p by_ sel with
  | Some d, Some _ => Qle_bool d secs
  | _, _ => false
  end.

(** [s] with [e] appended to the trace. *)
Definition and_then (s : Sys) (e : Event) : Sys :=
  {| obj := obj s; world := with_trace (trace (world s) ++ [e]) (world s) |}.

(** What [cp[section][option]] evaluates to when it evaluates: the
    section's own value, else the one of [DEFAULT]. *)
Definition value_of (cp : ConfigParser) (section key : string)
  : option string :=
  match _sections cp !! section with
  | Some d => (d ∪ _defaults cp) !! optionxform key
  | None => _defaults cp !! optionxform key
  end.

(** No section with the name of the defaults (empty, or [DEFAULT]) lists
    anything: so it is with every file that [ConfigParser.read] accepts. *)
Definition proper_sections (cp : ConfigParser) : Prop :=
  forall sec d,
    names_defaults sec = true -> _sections cp !! sec = Some d -> d = ∅.

(** No value of [cp] contains a [%]: interpolation leaves every value as
    it is. *)
Definition plain_values (cp : ConfigParser) : Prop :=
  (forall k v, _defaults cp !! k = Some v -> contains_percent v = false)
  /\ (forall sec d k v,
        _sections cp !! sec = Some d -> d !! k = Some v ->
        contains_percent v = false).

(** [input(prompt) or None], replaced by the default when [None]: the
    line typed at position [pos], or [dflt] when that line is empty. *)
Definition typed_or_default (env : Env) (pos : nat) (dflt : string) : string :=
  if bool_decide (keyboard env pos = "") then dflt else keyboard env pos.

(** One recognized key resolved: from configuration [cp] and keyboard
    position [pos] to [cp'], the value [v] and position [pos']. *)
Definition resolved (env : Env) (cp : ConfigParser)
    (section key dflt : string) (pos : nat)
    (cp' : ConfigParser) (v : string) (pos' : nat) : Prop :=
  contains cp' section = true
  /\ offers cp' section key = true
  /\ value_of cp' section key = Some v
  /\ (forall sec k', optionxform k' <> optionxform key ->
                     value_of cp' sec k' = value_of cp sec k'
                     /\ offers cp' sec k' = offers cp sec k')
  /\ (forall sec, contains cp sec = true -> contains cp' sec = true)
  /\ (proper_sections cp -> proper_sections cp')
  /\ (if offers cp section key
      then value_of cp section key = Some v /\ pos' = pos
      else pos' = S pos
           /\ (proper_sections cp -> v = typed_or_default env pos dflt)).



(** The starts and ends of browser processes among the events, in
    order. *)
Definition browser_lifecycle (evs : list Event) : list Event :=
  flat_map
    (fun e => match e with Launch _ | DriverQuit => [e] | _ => [] end) evs.

(** From [s] to [s'] no browser was started or quit, and neither the
    driver nor a setting of the object was assigned. *)
Definition same_session (s s' : Sys) : Prop :=
  driver (obj s') = driver (obj s)
  /\ attrs (obj s') = attrs (obj s)
  /\ exists evs,
       trace (world s') = trace (world s) ++ evs
       /\ browser_lifecycle evs = [].

(** The browser that a value of the browser setting stands for. *)
Definition named_browser (browser : string) : Driver :=
  if bool_decide (browser = "Chrome") then Chrome
  else if bool_decide (browser = "Edge") then Edge
  else Firefox.

(** From [s] to [s'] at most one browser was started: none, and the
    driver is as before, or the one the browser setting names, which is
    then the driver.  No browser was quit and no setting assigned. *)
Definition at_most_one_launch (s s' : Sys) : Prop :=
  attrs (obj s') = attrs (obj s)
  /\ exists evs,
       trace (world s') = trace (world s) ++ evs
       /\ (driver (obj s') = driver (obj s) /\ browser_lifecycle evs = []
           \/ exists browser,
                attrs (obj s) !! "browser" = Some browser
                /\ driver (obj s') = Some (named_browser browser)
                /\ browser_lifecycle evs = [Launch (named_browser browser)]).

(** The attendance page at [url] once the event is chosen: after the
    click on the event control [c], the event name typed, the pause and
    ENTER. *)
Definition event_chosen (env : Env) (url event : string) (c : Element)
  : Page :=
  react env (Perform (send_keys Keys_ENTER))
    (react env (Perform (pause 1))
       (react env (Perform (send_keys event))
          (react env (Perform (click c)) (site env url).2))).

(** From [s] to [s'] the config file was not written, and the command
    line is as it was. *)
Definition file_untouched (s s' : Sys) : Prop :=
  disk_config (world s') = disk_config (world s)
  /\ args (obj s') = args (obj s)
  /\ exists evs,
       trace (world s') = trace (world s) ++ evs /\ rewrites evs = [].


(** ** Sample surroundings

    A small portal on which the definitions can be run: a login page, a
    dashboard and an attendance page with the event whose value is [7] and
    one checkbox per known attendee. *)
Module Sample.

Definition no_page : Page :=
  {| locate := fun _ _ => None;
     clickable_after := fun _ _ => None;
     tag_name := fun _ => "";
     value_attribute := fun _ => None;
     selected_option := fun _ => None |}.

Definition login_page : Page :=
  {| locate := fun by_ sel =>
       match by_ with
       | NAME => if bool_decide (sel = "login-button")
                 then Some (Node "login-button") else None
       | ID => if bool_decide (sel = "loginform-email")
                  || bool_decide (sel = "loginform-password")
               then Some (Node sel) else None
       | _ => None
       end;
     clickable_after := fun by_ sel =>
       match by_ with
       | NAME => if bool_decide (sel = "login-button")
                 then Some 1%Q else None
       | _ => None
       end;
     tag_name := fun _ => "input";
     value_attribute := fun _ => None;
     selected_option := fun _ => None |}.

(** The attendance page with the checkbox values [boxes] (by element
    id). *)
Definition attendance_page (boxes : gmap string string) : Page :=
  {| locate := fun by_ sel =>
       match by_ with
       | ID => if bool_decide (sel = "event-id")
                  || bool_decide (sel = "select2-event-id-container")
                  || bool_decide (sel = ID_LESSON_PLAN_CBOX)
               then Some (Node sel) else None
       | XPATH =>
           if bool_decide (sel = "//input[@id = 'A1-7-attended']")
           then Some (Node "A1-7-attended")
           else if bool_decide (sel = "//input[@id = 'A2-7-attended']")
           then Some (Node "A2-7-attended")
           else None
       | _ => None
       end;
     clickable_after := fun _ _ => None;
     tag_name := fun e =>
       match e with
       | Node "event-id" => "select"
       | _ => "input"
       end;
     value_attribute := fun e =>
       match e with
       | Node "event-option" => Some "7"
       | Node ref => boxes !! ref
       | ParentOf _ => None
       end;
     selected_option := fun e =>
       match e with
       | Node "event-id" => Some (Node "event-option")
       | _ => None
       end |}.

Definition boxes0 : gmap string string :=
  <["use-lesson-plans" := "0"]>
    (<["A1-7-attended" := "0"]> (<["A2-7-attended" := "1"]> ∅)).

Definition portal (url : string) : string * Page :=
  if bool_decide (url = "https://tlc.example/")
  then ("https://tlc.example/login", login_page)
  else if bool_decide (url = "https://tlc.example/attendance")
  then (url, attendance_page boxes0)
  else (url, no_page).

Definition roster_book : Workbook :=
  [("Notes", {| column_A := [] |});
   ("Attendance", {| column_A := [VStr "A1"; VStr "A2"] |})].

(** Row 2 of the sheet has nothing in column A. *)
Definition gap_book : Workbook :=
  [("Attendance", {| column_A := [VStr "A1"; VNone; VStr "A2"] |})].

Definition other_book : Workbook :=
  [("Sheet1", {| column_A := [VStr "A1"] |})].

Definition books (path : string) : option Workbook :=
  if bool_decide (path = "roster.xlsx") then Some roster_book
  else if bool_decide (path = "gaps.xlsx") then Some gap_book
  else if bool_decide (path = "other.xlsx") then Some other_book
  else None.

(** A first run: no config file yet, the operator types the server name
    and the sheet name and accepts the other defaults; the attendance
    file is [file] and the portal answers the login button with
    [answer].  A path without a workbook is a path without a file, and a
    config file reads back as it was written (no value here has white
    space around it). *)
Definition env_for (file : string) (answer : option Response) : Env :=
  {| argv_filename := file;
     argv_event := "Troop meeting";
     argv_log := None;
     argv_config := None;
     keyboard := fun n =>
       match n with
       | 0 => "tlc.example"
       | 2 => "Attendance"
       | _ => ""
       end;
     tty_password := "secret";
     workbook_at := books;
     load_error := FileNotFoundError;
     read_back := inr;
     float := fun s => if bool_decide (s = "30") then Some 30%Q else None;
     site := portal;
     login_response := fun _ => answer;
     react := fun _ p => p |}.

(** The portal reaches the dashboard two seconds after the login button
    is pressed. *)
Definition env0 : Env :=
  env_for "roster.xlsx"
    (Some {| resp_delay := 2; resp_url := "https://tlc.example/dashboard";
             resp_error := false |}).

(** As [env_for], on a portal that never shows anything. *)
Definition env_stalled (file : string) : Env :=
  {| argv_filename := file;
     argv_event := "Troop meeting";
     argv_log := None;
     argv_config := None;
     keyboard := keyboard (env_for file None);
     tty_password := "secret";
     workbook_at := books;
     load_error := FileNotFoundError;
     read_back := inr;
     float := float (env_for file None);
     site := fun url => (url, no_page);
     login_response := fun _ => None;
     react := fun _ p => p |}.

(** As [env0], with a roster that names an attendee the attendance page
    has no checkbox for. *)
Definition env_stranger : Env :=
  {| argv_filename := "roster.xlsx";
     argv_event := "Troop meeting";
     argv_log := None;
     argv_config := None;
     keyboard := keyboard env0;
     tty_password := "secret";
     workbook_at := fun _ =>
       Some [("Attendance",
              {| column_A := [VStr "A1"; VStr "B9"; VStr "A2"] |})];
     load_error := FileNotFoundError;
     read_back := inr;
     float := float env0;
     site := portal;
     login_response := login_response env0;
     react := fun _ p => p |}.

(** As [env0], with an operator who types [a%b] on every line. *)
Definition env_percent : Env :=
  {| argv_filename := "roster.xlsx";
     argv_event := "Troop meeting";
     argv_log := None;
     argv_config := None;
     keyboard := fun _ => "a%b";
     tty_password := "secret";
     workbook_at := books;
     load_error := FileNotFoundError;
     read_back := inr;
     float := float env0;
     site := portal;
     login_response := login_response env0;
     react := fun _ p => p |}.

Definition world0 : World :=
  {| trace := []; stdin_pos := 0; disk_config := None;
     current_url := "about:blank"; page := no_page; submissions := 0 |}.

Definition blank : TLC :=
  {| args := {| filename := ""; event := ""; log := ""; config_path := "" |};
     driver := None; attrs := ∅; config := None; configChanged := None;
     attendees := None |}.

Definition sys0 : Sys := {| obj := blank; world := world0 |}.

(** A config file that keeps the account e-mail in [DEFAULT], next to
    the server, browser and sheet name, and has no section for the
    server. *)
Definition shared_config : ConfigParser :=
  {| _defaults :=
       list_to_map
         [("server", "tlc.example"); ("browser", "Firefox");
          ("sheetname", "Attendance"); ("email", "scout@example.com")];
     _sections := ∅ |}.

(** After [config_read] found no file. *)
Definition unconfigured : Sys :=
  {| obj :=
       {| args := args blank; driver := None; attrs := ∅;
          config := Some configparser.empty; configChanged := Some false;
          attendees := None |};
     world := world0 |}.



(** The object as [readConfig] leaves it on the sample portal, for the
    attendance file [file]. *)
Definition configured (file : string) : TLC :=
  {| args := {| filename := file; event := "Troop meeting";
                log := "./TLCAttendance.log";
                config_path := "./.config.ini" |};
     driver := None;
     attrs :=
       list_to_map
         [("server", "tlc.example"); ("browser", "Firefox");
          ("sheetName", "Attendance"); ("email", "user@example.com");
          ("initial_wait_secs", "30");
          ("BASE_URL", "https://tlc.example/");
          ("DASHBOARD_URL", "https://tlc.example/dashboard");
          ("LOGIN_URL", "https://tlc.example/login")];
     config := Some configparser.empty;
     configChanged := Some false;
     attendees := None |}.

Definition ready (file : string) : Sys :=
  {| obj := configured file; world := world0 |}.

(** Logged in, with the roster [roster] loaded. *)
Definition logged_in (roster : list CellValue) : Sys :=
  {| obj :=
       {| args := args (configured "roster.xlsx");
          driver := Some Firefox;
          attrs := attrs (configured "roster.xlsx");
          config := Some configparser.empty;
          configChanged := Some false;
          attendees := Some roster |};
     world :=
       {| trace := []; stdin_pos := 0; disk_config := None;
          current_url := "https://tlc.example/dashboard";
          page := no_page; submissions := 1 |} |}.

(** On the attendance page, about to enter the marking loop. *)
Definition marking (roster : list CellValue) : Sys :=
  {| obj := obj (logged_in roster);
     world :=
       {| trace := []; stdin_pos := 0; disk_config := None;
          current_url := "https://tlc.example/attendance";
          page := attendance_page boxes0; submissions := 1 |} |}.

End Sample.

(** * Properties *)

(** ** Running the model

    [cbn] executes a computation on a state as far as its branches are
    decided. *)

#[local] Arguments mbind {_ _ _ _} _ _ /.
#[local] Arguments mret {_ _ _} _ /.
Arguments M_bind {_ _} _ _ _ /.
Arguments M_ret {_} _ _ /.
Arguments bind {_ _} _ _ _ /.
Arguments ret {_} _ _ /.
Arguments raise {_} _ _ /.
Arguments diverge {_} _ /.
Arguments lift {_} _ _ /.
Arguments except_TimeoutException {_} _ _ _ /.
Arguments self _ /.
Arguments the_world _ /.
Arguments put_obj _ _ /.
Arguments put_world _ _ /.
Arguments emit _ _ /.
Arguments print _ _ /.
Arguments logging_info _ _ /.
Arguments sleep _ _ /.
Arguments getattr _ _ /.
Arguments setattr _ _ _ /.
Arguments self_config _ /.
Arguments set_config _ _ /.
Arguments self_configChanged _ /.
Arguments set_configChanged _ _ /.
Arguments self_attendees _ /.
Arguments set_attendees _ _ /.
Arguments set_driver _ _ /.
Arguments self_driver _ _ /.
Arguments input _ _ _ /.
Arguments getpass _ _ _ /.
Arguments config_read _ _ /.
Arguments config_write _ /.
Arguments load_workbook _ _ _ /.
Arguments stimulate _ _ _ /.
Arguments driver_get _ _ _ /.
Arguments driver_current_url _ /.
Arguments find_element _ _ _ /.
Arguments find_parent _ _ /.
Arguments get_attribute_value _ _ /.
Arguments element_send_keys _ _ _ _ /.
Arguments element_click _ _ _ /.
Arguments WebDriverWait _ _ _ /.
Arguments until_clickable _ _ _ _ /.
Arguments until_error_or_dashboard _ _ _ _ /.
Arguments scrollFirefox _ _ _ /.
Arguments getDriver _ /.

(** Case analysis on the innermost undecided branch of a run [H]. *)
Ltac branch H :=
  match type of H with
  | context [match ?x with _ => _ end] =>
      lazymatch x with
      | context [match _ with _ => _ end] => fail
      | _ => destruct x eqn:?
      end
  end;
  cbn in H.

Ltac branches H := repeat branch H; simplify_eq.

(** The methods stay folded until a proof unfolds them. *)
Arguments read_file : simpl never.
Arguments readConfigItem : simpl never.
Arguments setURLs : simpl never.
Arguments readConfig : simpl never.
Arguments open_login_form : simpl never.
Arguments login : simpl never.
Arguments logout : simpl never.
Arguments loadAttendanceData : simpl never.
Arguments markAttendee : simpl never.
Arguments select_event : simpl never.
Arguments recordAttendance : simpl never.
Arguments resolve_and_load : simpl never.
Arguments main : simpl never.
Arguments __init__ : simpl never.
Arguments __del__ : simpl never.

Lemma bind_run {A B} (m : M A) (k : A -> M B) (s : Sys) :
  (m ≫= k) s =
  match m s with
  | (Ok a, s') => k a s'
  | (Raise e, s') => (Raise e, s')
  | (Diverge, s') => (Diverge, s')
  end.
Proof. reflexivity. Qed.

(** ** Roster loading *)

Lemma cells_split (cells : list CellValue) :
  length cells = non_empty_cells cells + empty_cells cells.
Proof.
  unfold non_empty_cells, empty_cells.
  induction cells as [|v cells IH]; [reflexivity|].
  rewrite !filter_cons. destruct v; cbn; repeat case_decide; try done; cbn; lia.
Qed.

Lemma sheet_by_name_Some (wb : Workbook) (name : string) :
  name ∈ sheetnames wb -> is_Some (sheet_by_name wb name).
Proof.
  unfold sheetnames.
  induction wb as [|[title ws] wb IH]; cbn; intros Hin.
  - by apply elem_of_nil in Hin.
  - case_bool_decide; [by eexists|].
    apply elem_of_cons in Hin as [->|Hin]; [done|by apply IH].
Qed.

Lemma sheet_by_name_elem (wb : Workbook) (name : string) (ws : Worksheet) :
  sheet_by_name wb name = Some ws -> name ∈ sheetnames wb.
Proof.
  unfold sheetnames.
  induction wb as [|[title ws'] wb IH]; cbn; [done|].
  case_bool_decide; subst; intros Hws.
  - apply elem_of_cons; by left.
  - apply elem_of_cons; right; by apply IH.
Qed.

(** The loop over the column appends the cell values to the list, in
    order. *)
Lemma append_cells_run (cells l : list CellValue) (s : Sys) :
  attendees (obj s) = Some l ->
  append_cells cells s = (Ok tt, (set_attendees (l ++ cells) s).2).
Proof.
  revert l s. induction cells as [|v cells IH]; intros l s Hl.
  - destruct s as [[] w]; cbn in *. subst. by rewrite app_nil_r.
  - cbn. rewrite Hl. cbn.
    erewrite IH by reflexivity. cbn. by rewrite <- app_assoc.
Qed.

Lemma loadAttendanceData_found env (s : Sys) wb name ws :
  workbook_at env (filename (args (obj s))) = Some wb ->
  attrs (obj s) !! "sheetName" = Some name ->
  sheet_by_name wb name = Some ws ->
  loadAttendanceData env s =
    (Ok (length (column_A ws)),
     {| obj := obj (set_attendees (column_A ws) s).2;
        world :=
          with_trace
            (trace (world s)
             ++ [LoadWorkbook (filename (args (obj s))); CloseWorkbook])
            (world s) |}).
Proof.
  intros Hwb Hname Hws.
  unfold loadAttendanceData. cbn. rewrite Hwb. cbn. rewrite Hname. cbn.
  rewrite bool_decide_eq_true_2 by eauto using sheet_by_name_elem.
  rewrite Hws. cbn.
  erewrite append_cells_run by reflexivity. cbn.
  unfold with_trace. cbn. by rewrite <- app_assoc.
Qed.

Lemma loadAttendanceData_not_found env (s : Sys) wb name :
  workbook_at env (filename (args (obj s))) = Some wb ->
  attrs (obj s) !! "sheetName" = Some name ->
  name ∉ sheetnames wb ->
  loadAttendanceData env s =
    (Ok 0,
     {| obj := obj (set_attendees [] s).2;
        world :=
          with_trace
            (trace (world s)
             ++ [LoadWorkbook (filename (args (obj s)));
                 Print ("ERROR: Sheet " +:+ name +:+ " not found in "
                        +:+ filename (args (obj s)))])
            (world s) |}).
Proof.
  intros Hwb Hname Hnot.
  unfold loadAttendanceData. cbn. rewrite Hwb. cbn. rewrite Hname. cbn.
  rewrite bool_decide_eq_false_2 by done. cbn.
  unfold with_trace. cbn. by rewrite <- app_assoc.
Qed.

(** C4 (as the code has it). When the workbook has the configured sheet,
    roster loading returns normally, the roster is the column's cell values
    in file order with nothing filtered out (an empty cell appears as
    [None]), and the count returned is the number of cells of the column:
    the non-empty ones plus the empty ones. *)
Theorem loadAttendanceData_reads_every_cell env (s : Sys) wb name ws :
  workbook_at env (filename (args (obj s))) = Some wb ->
  attrs (obj s) !! "sheetName" = Some name ->
  sheet_by_name wb name = Some ws ->
  exists s',
    loadAttendanceData env s =
      (Ok (non_empty_cells (column_A ws) + empty_cells (column_A ws)), s')
    /\ attendees (obj s') = Some (column_A ws)
    /\ length (column_A ws) =
         non_empty_cells (column_A ws) + empty_cells (column_A ws).
Proof.
  intros Hwb Hname Hws.
  rewrite (loadAttendanceData_found env s wb name ws) by done.
  rewrite <- cells_split. eauto.
Qed.

Lemma loadAttendanceData_reads_every_cell_witness :
  exists s',
    loadAttendanceData Sample.env0 (Sample.ready "roster.xlsx") = (Ok (2 + 0), s')
    /\ attendees (obj s') = Some [VStr "A1"; VStr "A2"]
    /\ 2 = 2 + 0.
Proof.
  apply (loadAttendanceData_reads_every_cell Sample.env0
           (Sample.ready "roster.xlsx") Sample.roster_book "Attendance"
           {| column_A := [VStr "A1"; VStr "A2"] |}); reflexivity.
Defined.

(** C4 as stated fails: with an empty cell between two filled ones the
    column holds two non-empty cells, yet the roster has three entries
    and the count returned is three. *)
Lemma loadAttendanceData_counts_empty_cells :
  sheet_by_name Sample.gap_book "Attendance"
    = Some {| column_A := [VStr "A1"; VNone; VStr "A2"] |}
  /\ non_empty_cells [VStr "A1"; VNone; VStr "A2"] = 2
  /\ (loadAttendanceData Sample.env0 (Sample.ready "gaps.xlsx")).1 = Ok 3
  /\ attendees (obj (loadAttendanceData Sample.env0 (Sample.ready "gaps.xlsx")).2)
     = Some [VStr "A1"; VNone; VStr "A2"].
Proof. repeat split; vm_compute; reflexivity. Qed.

(** C5. When the workbook has no sheet of the configured name, roster
    loading prints an error, leaves the roster empty and returns 0 without
    raising. *)
Theorem loadAttendanceData_sheet_missing env (s : Sys) wb name :
  workbook_at env (filename (args (obj s))) = Some wb ->
  attrs (obj s) !! "sheetName" = Some name ->
  name ∉ sheetnames wb ->
  exists s',
    loadAttendanceData env s = (Ok 0, s')
    /\ attendees (obj s') = Some []
    /\ trace (world s') =
         trace (world s)
         ++ [LoadWorkbook (filename (args (obj s)));
             Print ("ERROR: Sheet " +:+ name +:+ " not found in "
                    +:+ filename (args (obj s)))].
Proof.
  intros Hwb Hname Hnot.
  rewrite (loadAttendanceData_not_found env s wb name) by done.
  eexists; split; [reflexivity|]. split; reflexivity.
Qed.

Lemma loadAttendanceData_sheet_missing_witness :
  exists s',
    loadAttendanceData Sample.env0 (Sample.ready "other.xlsx") = (Ok 0, s')
    /\ attendees (obj s') = Some []
    /\ trace (world s') =
         [LoadWorkbook "other.xlsx";
          Print "ERROR: Sheet Attendance not found in other.xlsx"].
Proof.
  apply (loadAttendanceData_sheet_missing Sample.env0
           (Sample.ready "other.xlsx") Sample.other_book "Attendance").
  - reflexivity.
  - reflexivity.
  - vm_compute. intros H. repeat (apply elem_of_cons in H as [H|H]; [discriminate H|]).
    by apply elem_of_nil in H.
Defined.

(** C10. Loading the roster twice in succession gives the same outcome
    and the same stored roster as loading it once: the list is reset
    before it is filled, so nothing is duplicated. *)
Theorem loadAttendanceData_twice env (s : Sys) :
  ((loadAttendanceData env;; loadAttendanceData env) s).1
    = (loadAttendanceData env s).1
  /\ attendees (obj ((loadAttendanceData env;; loadAttendanceData env) s).2)
     = attendees (obj (loadAttendanceData env s).2).
Proof.
  destruct (workbook_at env (filename (args (obj s)))) as [wb|] eqn:Hwb;
    [|cbn; unfold loadAttendanceData; cbn; rewrite Hwb; cbn; done].
  destruct (attrs (obj s) !! "sheetName") as [name|] eqn:Hname;
    [|cbn; unfold loadAttendanceData; cbn; rewrite Hwb; cbn; rewrite Hname;
      done].
  destruct (decide (name ∈ sheetnames wb)) as [Hin|Hnot]; cbn.
  - destruct (sheet_by_name_Some wb name Hin) as [ws Hws].
    rewrite (loadAttendanceData_found env s wb name ws) by done.
    rewrite (loadAttendanceData_found env _ wb name ws) by done.
    done.
  - rewrite (loadAttendanceData_not_found env s wb name) by done.
    rewrite (loadAttendanceData_not_found env _ wb name) by done.
    done.
Qed.

(** ** The marking loop *)

Lemma lookups_app (evs1 evs2 : list Event) :
  lookups (evs1 ++ evs2) = lookups evs1 ++ lookups evs2.
Proof. unfold lookups. apply flat_map_app. Qed.

(** What one pass through the loop body does to the trace: it appends
    events, among them exactly one lookup, of the attendee's XPath (none
    only when there is no driver, and then the pass raises). *)
Lemma markAttendee_trace env sev n a (s : Sys) r s' :
  markAttendee env sev n a s = (r, s') ->
  obj s' = obj s
  /\ (forall m, r = Ok m -> m = S n)
  /\ exists evs,
       trace (world s') = trace (world s) ++ evs
       /\ (lookups evs = [(XPATH, attendeeXPath a sev)]
           \/ lookups evs = [] /\ forall m, r <> Ok m).
Proof.
  unfold markAttendee. cbn.
  intros H.
  branches H; cbn;
    (split; [reflexivity|]);
    (split; [intros; by simplify_eq|]);
    rewrite <- ?app_assoc; cbn;
    (eexists; split; [reflexivity|]); cbn; auto.
Qed.

Lemma markAttendees_app env sev n pre rest (s : Sys) :
  markAttendees env sev n (pre ++ rest) s =
  match markAttendees env sev n pre s with
  | (Ok n1, s1) => markAttendees env sev n1 rest s1
  | other => other
  end.
Proof.
  revert n s. induction pre as [|a pre IH]; intros n s; cbn; [done|].
  destruct (markAttendee env sev n a s) as [[n1| |] s1]; [apply IH|done..].
Qed.

(** The loop never touches the object; it looks up the XPath of each
    roster entry it reaches, in roster order; when it finishes, it has
    reached them all and counted them. *)
Lemma markAttendees_trace env sev roster n (s : Sys) r s' :
  markAttendees env sev n roster s = (r, s') ->
  obj s' = obj s
  /\ exists evs k,
       trace (world s') = trace (world s) ++ evs
       /\ k <= length roster
       /\ lookups evs =
            (fun a => (XPATH, attendeeXPath a sev)) <$> take k roster
       /\ (forall m, r = Ok m -> k = length roster /\ m = n + length roster).
Proof.
  revert n s. induction roster as [|a rest IH]; intros n s H; cbn in H.
  - simplify_eq. split; [done|]. exists [], 0. rewrite app_nil_r.
    split_and!; [done| cbn; lia | done |]. intros m [= <-]. cbn. lia.
  - destruct (markAttendee env sev n a s) as [r1 s1] eqn:Hstep.
    apply markAttendee_trace in Hstep as (Hobj & Hcount & evs1 & Htr & Hl).
    destruct r1 as [n1| |].
    + apply IH in H as (Hobj' & evs2 & k & Htr' & Hk & Hl' & Hok).
      split; [congruence|].
      destruct Hl as [Hl|[_ Hl]]; [|by destruct (Hl n1)].
      exists (evs1 ++ evs2), (S k). rewrite Htr', Htr, app_assoc.
      rewrite lookups_app, Hl, Hl'. cbn.
      split_and!; [done|lia|done|].
      intros m Hm. destruct (Hok m Hm) as [-> ->].
      rewrite (Hcount n1 eq_refl). lia.
    + simplify_eq. split; [done|].
      destruct Hl as [Hl|[Hl _]].
      * exists evs1, 1. cbn. rewrite take_0.
        split_and!; [done|lia|done|done].
      * exists evs1, 0. cbn. split_and!; [done|lia|done|done].
    + simplify_eq. split; [done|].
      destruct Hl as [Hl|[Hl _]].
      * exists evs1, 1. cbn. rewrite take_0.
        split_and!; [done|lia|done|done].
      * exists evs1, 0. cbn. split_and!; [done|lia|done|done].
Qed.

(** C8. For a roster of identifiers [ids] and the event value [v], the
    elements the marking loop looks up are, in roster order, those of the
    XPath queries for the ids [a-v-attended]; a loop that finishes has
    looked up one per roster entry. *)
Theorem markAttendees_looks_up_cbox_id env v ids n (s : Sys) r s' :
  markAttendees env (Some v) n (VStr <$> ids) s = (r, s') ->
  exists evs k,
    trace (world s') = trace (world s) ++ evs
    /\ k <= length ids
    /\ lookups evs =
         (fun a =>
            (XPATH, "//input[@id = '" +:+ (a +:+ "-" +:+ v +:+ "-attended")
                    +:+ "']"))
         <$> take k ids
    /\ (forall m, r = Ok m -> k = length ids).
Proof.
  intros H.
  apply markAttendees_trace in H as (_ & evs & k & Htr & Hk & Hl & Hok).
  exists evs, k. rewrite length_fmap in *.
  split_and!; [done..| |by intros m Hm; apply (Hok m)].
  by rewrite Hl, <- fmap_take, <- list_fmap_compose.
Qed.

Lemma markAttendees_looks_up_cbox_id_witness :
  exists evs k,
    trace (world (markAttendees Sample.env0 (Some "7") 0 [VStr "A1"; VStr "A2"]
                    (Sample.marking [VStr "A1"; VStr "A2"])).2)
      = [] ++ evs
    /\ k <= 2
    /\ lookups evs =
         (fun a =>
            (XPATH, "//input[@id = '" +:+ (a +:+ "-" +:+ "7" +:+ "-attended")
                    +:+ "']"))
         <$> take k ["A1"; "A2"]
    /\ (forall m, Ok 2 = Ok m -> k = 2).
Proof.
  apply (markAttendees_looks_up_cbox_id Sample.env0 "7" ["A1"; "A2"] 0
           (Sample.marking [VStr "A1"; VStr "A2"]) (Ok 2)).
  vm_compute. reflexivity.
Defined.

(** C7. When the checkbox of a roster entry is found and its value is
    anything but ['0'], the pass for that entry only prints and looks up:
    it appends no click, scroll or chained pointer action, leaves the
    page as it is, and the loop goes on with the next entry. *)
Theorem markAttendees_skips_checked env sev n a rest (s : Sys) d e :
  driver (obj s) = Some d ->
  locate (page (world s)) XPATH (attendeeXPath a sev) = Some e ->
  value_attribute (page (world s)) e <> Some "0" ->
  let evs :=
    [Print ("Check attendee: " +:+ str a);
     Print ("Find attendee by xpath: " +:+ attendeeXPath a sev);
     Find XPATH (attendeeXPath a sev);
     FindParent e;
     Print "Before move to element";
     Print ("Attendee checkbox value: "
            +:+ fmt (value_attribute (page (world s)) e));
     Print "Attendee checkbox already checked"] in
  Forall (fun ev => pointer_action ev = false) evs
  /\ markAttendees env sev n (a :: rest) s =
       markAttendees env sev (S n) rest
         {| obj := obj s;
            world := with_trace (trace (world s) ++ evs) (world s) |}.
Proof.
  intros Hd He Hv evs. split.
  - repeat constructor.
  - cbn. unfold markAttendee. cbn. rewrite Hd. cbn. rewrite He. cbn.
    rewrite bool_decide_eq_false_2 by done. cbn.
    unfold with_trace, evs. cbn. by rewrite <- !app_assoc.
Qed.

Lemma markAttendees_skips_checked_witness :
  let s := Sample.marking [VStr "A2"] in
  let evs :=
    [Print "Check attendee: A2";
     Print "Find attendee by xpath: //input[@id = 'A2-7-attended']";
     Find XPATH "//input[@id = 'A2-7-attended']";
     FindParent (Node "A2-7-attended");
     Print "Before move to element";
     Print "Attendee checkbox value: 1";
     Print "Attendee checkbox already checked"] in
  Forall (fun ev => pointer_action ev = false) evs
  /\ markAttendees Sample.env0 (Some "7") 0 [VStr "A2"] s =
       markAttendees Sample.env0 (Some "7") 1 []
         {| obj := obj s;
            world := with_trace (trace (world s) ++ evs) (world s) |}.
Proof.
  apply (markAttendees_skips_checked Sample.env0 (Some "7") 0 (VStr "A2") []
           (Sample.marking [VStr "A2"]) Firefox (Node "A2-7-attended")).
  - reflexivity.
  - reflexivity.
  - vm_compute. discriminate.
Defined.

(** Choosing the event works on the browser only, and needs one. *)
Lemma select_event_obj env (s : Sys) sev s0 :
  select_event env s = (Ok sev, s0) ->
  obj s0 = obj s /\ is_Some (driver (obj s)).
Proof.
  unfold select_event. cbn. intros H.
  branches H; cbn; eauto.
Qed.

(** C2. When the loop has gone through the entries before position [i]
    (those of [pre]) and the checkbox of the entry at [i] is not on the
    page, the lookup raises and [recordAttendance] ends there: the state
    it leaves is the one reached before entry [i] plus the two prints and
    the failed lookup of that entry, whatever entries [rest] follow; the
    last thing done is that lookup, so the summary is not printed. *)
Theorem recordAttendance_halts_at_missing_cbox
    env (s : Sys) sev s0 pre a rest n1 s1 :
  select_event env s = (Ok sev, s0) ->
  attendees (obj s0) = Some (pre ++ a :: rest) ->
  markAttendees env sev 0 pre s0 = (Ok n1, s1) ->
  locate (page (world s1)) XPATH (attendeeXPath a sev) = None ->
  let halted :=
    {| obj := obj s1;
       world :=
         with_trace
           (trace (world s1)
            ++ [Print ("Check attendee: " +:+ str a);
                Print ("Find attendee by xpath: " +:+ attendeeXPath a sev);
                Find XPATH (attendeeXPath a sev)])
           (world s1) |} in
  markAttendees env sev 0 (pre ++ a :: rest) s0
    = (Raise NoSuchElementException, halted)
  /\ recordAttendance env s = (Raise NoSuchElementException, halted)
  /\ last (trace (world halted)) = Some (Find XPATH (attendeeXPath a sev)).
Proof.
  intros Hsel Hroster Hpre Hloc halted.
  destruct (select_event_obj env s sev s0 Hsel) as [Hobj [d Hd]].
  destruct (markAttendees_trace env sev pre 0 s0 _ _ Hpre) as [Hobj1 _].
  assert (Hloop : markAttendees env sev 0 (pre ++ a :: rest) s0
                  = (Raise NoSuchElementException, halted)).
  { rewrite <- Hobj, <- Hobj1 in Hd.
    rewrite markAttendees_app, Hpre. cbn. unfold markAttendee. cbn.
    rewrite Hd. cbn. rewrite Hloc. cbn.
    unfold halted, with_trace. cbn. by rewrite <- !app_assoc. }
  split; [exact Hloop|split].
  - unfold recordAttendance. cbn. rewrite Hsel. cbn. rewrite Hroster. cbn.
    by rewrite Hloop.
  - unfold halted. cbn. by rewrite last_app.
Qed.

Lemma recordAttendance_halts_at_missing_cbox_witness :
  let roster := [VStr "A1"; VStr "B9"; VStr "A2"] in
  let s := Sample.logged_in roster in
  let s0 := (select_event Sample.env0 s).2 in
  let s1 := (markAttendees Sample.env0 (Some "7") 0 [VStr "A1"] s0).2 in
  let halted :=
    {| obj := obj s1;
       world :=
         with_trace
           (trace (world s1)
            ++ [Print "Check attendee: B9";
                Print "Find attendee by xpath: //input[@id = 'B9-7-attended']";
                Find XPATH "//input[@id = 'B9-7-attended']"])
           (world s1) |} in
  markAttendees Sample.env0 (Some "7") 0 roster s0
    = (Raise NoSuchElementException, halted)
  /\ recordAttendance Sample.env0 s = (Raise NoSuchElementException, halted)
  /\ last (trace (world halted))
     = Some (Find XPATH "//input[@id = 'B9-7-attended']").
Proof.
  apply (recordAttendance_halts_at_missing_cbox Sample.env0
           (Sample.logged_in [VStr "A1"; VStr "B9"; VStr "A2"]) (Some "7")
           _ [VStr "A1"] (VStr "B9") [VStr "A2"] 1).
  - vm_compute. reflexivity.
  - reflexivity.
  - vm_compute. reflexivity.
  - reflexivity.
Defined.

(** ** Steps that stay within a relation *)

Section Preserves.

Context (R : Sys -> Sys -> Prop) `{!Reflexive R, !Transitive R}.

Lemma preserves_ret {A} (a : A) : preserves R (mret a).
Proof. intros s r s' [= _ <-]. reflexivity. Qed.

Lemma preserves_raise {A} (e : Exn) : preserves R (@raise A e).
Proof. intros s r s' [= _ <-]. reflexivity. Qed.

Lemma preserves_lift {A} (x : Res A) : preserves R (lift x).
Proof. intros s r s' [= _ <-]. reflexivity. Qed.

Lemma preserves_bind {A B} (m : M A) (k : A -> M B) :
  preserves R m -> (forall a, preserves R (k a)) -> preserves R (m ≫= k).
Proof.
  intros Hm Hk s r s'. cbn.
  destruct (m s) as [[a|e|] s1] eqn:Hrun; intros H.
  - etrans; [by eapply Hm|by eapply Hk].
  - simplify_eq. by eapply Hm.
  - simplify_eq. by eapply Hm.
Qed.

End Preserves.

(** Takes a computation apart along its binds and branches, leaving its
    primitive steps to the hints of [db]. *)
Ltac preserves_with db :=
  repeat first
    [ solve [auto with db]
    | simple apply preserves_ret; apply _
    | simple apply preserves_raise; apply _
    | simple apply preserves_lift; apply _
    | simple apply preserves_bind; [apply _| |intros ?]
    | match goal with
      | |- preserves _ (if ?b then _ else _) => destruct b
      | |- preserves _ (match ?x with _ => _ end) => destruct x
      end ].

(** ** An empty roster ends the run *)

#[local] Instance offline_step_refl : Reflexive offline_step.
Proof.
  intros s. split; [done|]. exists []. by rewrite app_nil_r.
Qed.

#[local] Instance offline_step_trans : Transitive offline_step.
Proof.
  intros s1 s2 s3 [Hd1 (evs1 & Ht1 & Hf1)] [Hd2 (evs2 & Ht2 & Hf2)].
  split; [congruence|].
  exists (evs1 ++ evs2). rewrite Ht2, Ht1, app_assoc.
  split; [done|]. by apply Forall_app.
Qed.

Ltac offline_prim :=
  let H := fresh in
  intros ? ? ? H; cbn in H; branches H;
  first
    [ reflexivity
    | split; [reflexivity|]; cbn;
      first
        [ exists []; split; [by rewrite app_nil_r|constructor]
        | eexists; split; [reflexivity|]; repeat constructor ] ].

Create HintDb offline.

Lemma offline_self : preserves offline_step self.
Proof. offline_prim. Qed.
Lemma offline_the_world : preserves offline_step the_world.
Proof. offline_prim. Qed.
Lemma offline_emit e :
  offline_event e = true -> preserves offline_step (emit e).
Proof. intros He. offline_prim. done. Qed.
Lemma offline_print line : preserves offline_step (print line).
Proof. by apply offline_emit. Qed.
Lemma offline_logging_info line : preserves offline_step (logging_info line).
Proof. by apply offline_emit. Qed.
Lemma offline_getattr name : preserves offline_step (getattr name).
Proof. offline_prim. Qed.
Lemma offline_setattr name v : preserves offline_step (setattr name v).
Proof. offline_prim. Qed.
Lemma offline_self_config : preserves offline_step self_config.
Proof. offline_prim. Qed.
Lemma offline_set_config cp : preserves offline_step (set_config cp).
Proof. offline_prim. Qed.
Lemma offline_self_configChanged : preserves offline_step self_configChanged.
Proof. offline_prim. Qed.
Lemma offline_set_configChanged b :
  preserves offline_step (set_configChanged b).
Proof. offline_prim. Qed.
Lemma offline_self_attendees : preserves offline_step self_attendees.
Proof. offline_prim. Qed.
Lemma offline_set_attendees l : preserves offline_step (set_attendees l).
Proof. offline_prim. Qed.
Lemma offline_input env text : preserves offline_step (input env text).
Proof. offline_prim. Qed.
Lemma offline_config_read env : preserves offline_step (config_read env).
Proof. offline_prim. Qed.
Lemma offline_config_write : preserves offline_step config_write.
Proof. offline_prim. Qed.
Lemma offline_load_workbook env path :
  preserves offline_step (load_workbook env path).
Proof. offline_prim. Qed.

#[local] Hint Resolve offline_self offline_the_world offline_print
  offline_logging_info offline_getattr offline_setattr offline_self_config
  offline_set_config offline_self_configChanged offline_set_configChanged
  offline_self_attendees offline_set_attendees offline_input
  offline_config_read offline_config_write offline_load_workbook : offline.

Lemma offline_readConfigItem env section key text dflt :
  preserves offline_step (readConfigItem env section key text dflt).
Proof. unfold readConfigItem. preserves_with offline. Qed.

Lemma offline_setURLs : preserves offline_step setURLs.
Proof. unfold setURLs. preserves_with offline. Qed.

#[local] Hint Resolve offline_readConfigItem offline_setURLs : offline.

Lemma offline_readConfig env : preserves offline_step (readConfig env).
Proof. unfold readConfig. preserves_with offline. Qed.

Lemma offline_append_cells cells : preserves offline_step (append_cells cells).
Proof. induction cells; cbn; preserves_with offline. Qed.

#[local] Hint Resolve offline_readConfig offline_append_cells : offline.

Lemma offline_loadAttendanceData env :
  preserves offline_step (loadAttendanceData env).
Proof.
  unfold loadAttendanceData. preserves_with offline.
  all: by apply offline_emit.
Qed.

(** [main] up to the count test works on the terminal and on files only
    and leaves the object without a driver. *)
Lemma resolve_and_load_offline env (s : Sys) r s1 :
  resolve_and_load env s = (r, s1) ->
  driver (obj s1) = None
  /\ exists evs,
       trace (world s1) = trace (world s) ++ evs
       /\ Forall (fun e => offline_event e = true) evs.
Proof.
  unfold resolve_and_load, __init__. cbn.
  match goal with
  | |- context [readConfig env ?s0] =>
      destruct (readConfig env s0) as [r1 s2] eqn:Hcfg;
      apply offline_readConfig in Hcfg as [Hd (evs1 & Ht1 & Hf1)]
  end.
  cbn in Hd, Ht1.
  assert (Hpre : trace (world s2) =
                 trace (world s)
                 ++ [LogInfo ("Using attendance file: " +:+ argv_filename env);
                     LogInfo ("Using log file: "
                              +:+ default "./TLCAttendance.log" (argv_log env));
                     LogInfo ("Using config file: "
                              +:+ default "./.config.ini" (argv_config env))]
                 ++ evs1).
  { rewrite Ht1. by rewrite <- !app_assoc. }
  destruct r1 as [[]|e|]; intros H.
  - apply offline_loadAttendanceData in H as [Hd' (evs2 & Ht2 & Hf2)].
    split; [congruence|].
    eexists. rewrite Ht2, Hpre, <- !app_assoc. split; [reflexivity|].
    repeat (apply Forall_cons; split; [done|]). by apply Forall_app.
  - simplify_eq. split; [done|].
    eexists. rewrite Hpre. split; [reflexivity|].
    by repeat (apply Forall_cons; split; [done|]).
  - simplify_eq. split; [done|].
    eexists. rewrite Hpre. split; [reflexivity|].
    by repeat (apply Forall_cons; split; [done|]).
Qed.

(** C6. When the first roster load returns zero, [main] prints the error
    and returns: the state it leaves is the one after the load plus that
    one line, and finalizing the object adds nothing to it; there is no
    driver, and everything done since the start is terminal and file
    activity, so no browser was started, no password asked and no page
    touched. *)
Theorem main_aborts_on_empty_roster env fuel (s : Sys) s1 :
  resolve_and_load env s = (Ok 0, s1) ->
  let aborted :=
    {| obj := obj s1;
       world :=
         with_trace
           (trace (world s1) ++ [Print "ERROR: No data found in spreadsheet."])
           (world s1) |} in
  main env fuel s = (Ok tt, aborted)
  /\ script env fuel s = (Ok tt, aborted)
  /\ driver (obj aborted) = None
  /\ exists evs,
       trace (world aborted) = trace (world s) ++ evs
       /\ Forall (fun e => offline_event e = true) evs.
Proof.
  intros Hload aborted.
  destruct (resolve_and_load_offline env s _ _ Hload) as [Hd (evs & Ht & Hf)].
  assert (Hmain : main env fuel s = (Ok tt, aborted)).
  { unfold main. cbn. by rewrite Hload. }
  split; [exact Hmain|]. split; [|split].
  - unfold script. rewrite Hmain. unfold __del__. cbn. by rewrite Hd.
  - exact Hd.
  - exists (evs ++ [Print "ERROR: No data found in spreadsheet."]).
    unfold aborted. cbn. rewrite Ht, <- app_assoc. split; [done|].
    apply Forall_app. split; [done|]. by repeat constructor.
Qed.

Lemma main_aborts_on_empty_roster_witness :
  let env := Sample.env_for "other.xlsx" None in
  let s1 := (resolve_and_load env Sample.sys0).2 in
  let aborted :=
    {| obj := obj s1;
       world :=
         with_trace
           (trace (world s1) ++ [Print "ERROR: No data found in spreadsheet."])
           (world s1) |} in
  main env 2 Sample.sys0 = (Ok tt, aborted)
  /\ script env 2 Sample.sys0 = (Ok tt, aborted)
  /\ driver (obj aborted) = None
  /\ exists evs,
       trace (world aborted) = trace (world Sample.sys0) ++ evs
       /\ Forall (fun e => offline_event e = true) evs.
Proof.
  apply (main_aborts_on_empty_roster (Sample.env_for "other.xlsx" None) 2
           Sample.sys0).
  vm_compute. reflexivity.
Defined.

(** ** Login *)

Ltac extends_trace :=
  first
    [ exists []; split; [by rewrite app_nil_r|vm_compute; lia]
    | eexists; split; [rewrite <- ?app_assoc; reflexivity|vm_compute; lia] ].

(** Opening the login form presses nothing, and leaves a driver behind
    when it succeeds. *)
Lemma open_login_form_trace env (s : Sys) r s1 :
  open_login_form env s = (r, s1) ->
  (forall form, r = Ok form -> is_Some (driver (obj s1)))
  /\ r <> Diverge
  /\ exists evs,
       trace (world s1) = trace (world s) ++ evs /\ attempts evs = 0.
Proof.
  unfold open_login_form. cbn. intros H.
  branches H; cbn; (split; [intros; by simplify_eq|]); (split; [done|]);
    extends_trace.
Qed.

(** Two units of fuel are as good as any larger amount. *)
Lemma login_while_fuel env f pass btn (s : Sys) :
  login_while env (S (S f)) pass btn false s
    = login_while env 2 pass btn false s.
Proof. reflexivity. Qed.

Lemma login_while_trace env f pass btn (s : Sys) r s' :
  login_while env (S (S f)) pass btn false s = (r, s') ->
  r <> Diverge
  /\ exists evs,
       trace (world s') = trace (world s) ++ evs /\ attempts evs <= 1.
Proof.
  cbn. intros H.
  branches H; cbn; (split; [done|]); extends_trace.
Qed.

(** C9. Given fuel for two tests of the loop condition, [login] does the
    same whatever more fuel it gets and never runs out of it: it returns
    or raises.  Everything it does presses the login button at most
    once. *)
Theorem login_single_attempt env fuel (s : Sys) :
  2 <= fuel ->
  login env fuel s = login env 2 s
  /\ (login env fuel s).1 <> Diverge
  /\ exists evs,
       trace (world (login env fuel s).2) = trace (world s) ++ evs
       /\ attempts evs <= 1.
Proof.
  intros Hfuel. destruct fuel as [|[|f]]; [lia..|].
  unfold login. rewrite !bind_run.
  destruct (open_login_form env s) as [r1 s1] eqn:Hform.
  apply open_login_form_trace in Hform as (_ & Hdiv & evs1 & Ht1 & Ha1).
  destruct r1 as [form| |]; [|cbn; eauto with lia..|done].
  split; [reflexivity|].
  destruct (login_while env (S (S f)) form.1 form.2 false s1) as [r s'] eqn:Hloop.
  apply login_while_trace in Hloop as (Hdiv' & evs2 & Ht2 & Ha2).
  split; [done|].
  exists (evs1 ++ evs2). cbn. rewrite Ht2, Ht1, app_assoc. split; [done|].
  unfold attempts in *. rewrite filter_app, length_app. lia.
Qed.

Lemma login_single_attempt_witness :
  let s := Sample.ready "roster.xlsx" in
  login Sample.env0 5 s = login Sample.env0 2 s
  /\ (login Sample.env0 5 s).1 <> Diverge
  /\ exists evs,
       trace (world (login Sample.env0 5 s).2) = trace (world s) ++ evs
       /\ attempts evs <= 1.
Proof.
  apply (login_single_attempt Sample.env0 5 (Sample.ready "roster.xlsx")).
  lia.
Defined.

(** C1 (as the code has it). Once the login form is open and the
    password field is on the page, so that the credentials are submitted:
    if the portal's answer to the press of the button brings the browser
    to the dashboard URL within the 10 seconds of the post-login wait,
    [login] returns [True]; in every other case (no answer, a later one,
    or another URL) it returns [False], and a [main] that got this far
    ends in the very state [login] left, so [recordAttendance] is not
    run. *)
Theorem login_outcome env fuel (s : Sys) pass btn s1 field dash :
  2 <= fuel ->
  open_login_form env s = (Ok (pass, btn), s1) ->
  locate (page (world s1)) ID "loginform-password" = Some field ->
  attrs (obj s1) !! "DASHBOARD_URL" = Some dash ->
  let answer := login_response env (submissions (world s1)) in
  (reaches_dashboard_within 10 dash answer ->
   (login env fuel s).1 = Ok true)
  /\ (~ reaches_dashboard_within 10 dash answer ->
      (login env fuel s).1 = Ok false
      /\ forall s0 n,
           resolve_and_load env s0 = (Ok (S n), s) ->
           main env fuel s0 = (Ok tt, (login env fuel s).2)).
Proof.
  intros Hfuel Hform Hfield Hdash answer.
  destruct fuel as [|[|f]]; [lia..|].
  destruct (open_login_form_trace env s _ _ Hform) as (Hdrv & _).
  destruct (Hdrv _ eq_refl) as [d Hd].
  assert (Hmain : forall s0 n,
             (login env (S (S f)) s).1 = Ok false ->
             resolve_and_load env s0 = (Ok (S n), s) ->
             main env (S (S f)) s0 = (Ok tt, (login env (S (S f)) s).2)).
  { intros s0 n Hfalse Hload. unfold main. rewrite bind_run, Hload.
    rewrite bool_decide_eq_false_2 by done. rewrite bind_run.
    destruct (login env (S (S f)) s) as [r s']. cbn in Hfalse. by subst. }
  destruct (login env (S (S f)) s) as [r s'] eqn:Hlogin.
  unfold login in Hlogin. rewrite bind_run, Hform in Hlogin.
  cbn in Hlogin. rewrite Hd in Hlogin. cbn in Hlogin.
  rewrite Hfield in Hlogin. cbn in Hlogin. rewrite Hdash in Hlogin.
  cbn in Hlogin. fold answer in Hlogin.
  unfold reaches_dashboard_within.
  branches Hlogin; cbn in *;
    (split; [intros (? & ? & ? & ?)|intros Hnot]); simplify_eq;
    repeat case_bool_decide; simplify_eq;
    try done; try (split; [done|by eauto]);
    try (exfalso; apply Hnot; eauto; fail).
  all: try (destruct (resp_error _); done).
  all: congruence.
Qed.

Lemma login_outcome_witness :
  let s := Sample.ready "roster.xlsx" in
  let s1 := (open_login_form Sample.env0 s).2 in
  let answer := login_response Sample.env0 (submissions (world s1)) in
  (reaches_dashboard_within 10 "https://tlc.example/dashboard" answer ->
   (login Sample.env0 2 s).1 = Ok true)
  /\ (~ reaches_dashboard_within 10 "https://tlc.example/dashboard" answer ->
      (login Sample.env0 2 s).1 = Ok false
      /\ forall s0 n,
           resolve_and_load Sample.env0 s0 = (Ok (S n), s) ->
           main Sample.env0 2 s0 = (Ok tt, (login Sample.env0 2 s).2)).
Proof.
  apply (login_outcome Sample.env0 2 (Sample.ready "roster.xlsx")
           "secret" (Node "login-button") _ (Node "loginform-password")
           "https://tlc.example/dashboard").
  - lia.
  - vm_compute. reflexivity.
  - reflexivity.
  - reflexivity.
Defined.

(** C1 as stated fails: the configured timeout is 30 seconds and the
    portal reaches the dashboard 20 seconds after the credentials are
    submitted, which is within it; the post-login wait gives up after its
    own 10 seconds and [login] returns [False]. *)
Lemma login_ignores_configured_timeout :
  let env :=
    Sample.env_for "roster.xlsx"
      (Some {| resp_delay := 20; resp_url := "https://tlc.example/dashboard";
               resp_error := false |}) in
  let s := Sample.ready "roster.xlsx" in
  configured_timeout env s = Some 30%Q
  /\ (open_login_form env s).1 = Ok ("secret", Node "login-button")
  /\ reaches_dashboard_within 30 "https://tlc.example/dashboard"
       (login_response env (submissions (world (open_login_form env s).2)))
  /\ (login env 2 s).1 = Ok false.
Proof.
  split_and!; try (vm_compute; reflexivity).
  eexists. split; [reflexivity|]. split; reflexivity.
Qed.


(** ** Configuration resolution *)



Lemma ensure_contains cp section : contains (ensure cp section) section = true.
Proof.
  unfold ensure. destruct (contains cp section) eqn:Hc; [done|].
  unfold contains, has_section, setitem_empty in *.
  apply orb_false_iff in Hc as [Hne _].
  rewrite Hne. cbn. rewrite lookup_insert_eq.
  apply bool_decide_eq_true_2. by eexists.
Qed.


Lemma ensure_offers cp section sec k :
  offers (ensure cp section) sec k = offers cp sec k.
Proof.
  unfold ensure. destruct (contains cp section) eqn:Hc; [done|].
  unfold contains, has_section, setitem_empty in *.
  apply orb_false_iff in Hc as [Hne Hsec]. rewrite Hne.
  apply bool_decide_eq_false_1 in Hsec.
  unfold offers. cbn. f_equal. f_equal.
  destruct (decide (section = sec)) as [<-|Hother].
  - rewrite lookup_insert_eq. cbn. rewrite lookup_empty.
    destruct (_sections cp !! section) eqn:Hs; [|done].
    destruct Hsec. by eexists.
  - by rewrite lookup_insert_ne.
Qed.

(** *** Values without a [%] *)

Lemma drop_escaped_percents_plain v :
  contains_percent v = false -> drop_escaped_percents v = v.
Proof.
  induction v as [|c v IH]; [done|]. intros H.
  cbn [contains_percent] in H. apply orb_false_iff in H as [Hc Hv].
  destruct v as [|c2 v']; [done|].
  cbn [drop_escaped_percents]. rewrite Hc. cbn [andb].
  f_equal. by apply IH.
Qed.

Lemma drop_references_plain v :
  contains_percent v = false -> drop_references 0 v = v.
Proof.
  induction v as [|c v IH]; [done|]. intros H.
  cbn [contains_percent] in H. apply orb_false_iff in H as [Hc Hv].
  cbn [drop_references]. rewrite Hc. f_equal. by apply IH.
Qed.

Lemma before_set_plain v : contains_percent v = false -> before_set v = Ok v.
Proof.
  intros H. unfold before_set.
  by rewrite drop_escaped_percents_plain, drop_references_plain, H.
Qed.

Lemma interpolate_some_plain levels map option section v :
  contains_percent v = false ->
  interpolate_some (S levels) map option section v = Ok v.
Proof.
  cbn [interpolate_some].
  induction v as [|c v IH]; [done|]. intros H.
  cbn [contains_percent] in H. apply orb_false_iff in H as [Hc Hv].
  rewrite Hc. cbn [negb]. by rewrite IH.
Qed.

(** On a value without a [%], [set] stores. *)
Lemma set_plain cp section k v :
  contains_percent v = false ->
  configparser.set cp section k v =
    if names_defaults section
    then Ok {| _defaults := <[optionxform k := v]> (_defaults cp);
               _sections := _sections cp |}
    else match _sections cp !! section with
         | None => Raise (NoSectionError section)
         | Some d =>
             Ok {| _defaults := _defaults cp;
                   _sections :=
                     <[section := <[optionxform k := v]> d]>
                       (_sections cp) |}
         end.
Proof.
  intros H. unfold configparser.set.
  case_bool_decide; [done|]. by rewrite before_set_plain.
Qed.

Lemma setitem_contained cp section k v :
  contains cp section = true ->
  setitem cp section k v = configparser.set cp section k v.
Proof. intros Hc. unfold setitem. by rewrite Hc. Qed.


Lemma plain_values_ensure cp section :
  plain_values cp -> plain_values (ensure cp section).
Proof.
  unfold ensure. destruct (contains cp section); [done|].
  unfold setitem_empty. intros [Hd Hs].
  case_bool_decide; split; cbn; eauto.
  - intros k v. by rewrite lookup_empty.
  - intros sec d k v Hsec Hk.
    destruct (decide (section = sec)) as [<-|Hother].
    + rewrite lookup_insert_eq in Hsec. simplify_eq.
    + rewrite lookup_insert_ne in Hsec by done. eauto.
Qed.

Lemma plain_values_set cp section k v cp' :
  plain_values cp -> contains_percent v = false ->
  configparser.set cp section k v = Ok cp' -> plain_values cp'.
Proof.
  intros [Hd Hs] Hv. rewrite set_plain by done.
  destruct (names_defaults section).
  - intros [= <-]. split; cbn; [|by eauto].
    intros k0 v0 Hk0.
    destruct (decide (optionxform k = k0)) as [<-|Hother].
    + rewrite lookup_insert_eq in Hk0. by simplify_eq.
    + rewrite lookup_insert_ne in Hk0 by done. eauto.
  - destruct (_sections cp !! section) as [d|] eqn:Hsec; [|done].
    intros [= <-]. split; cbn; [by eauto|].
    intros sec d0 k0 v0 Hsec0 Hk0.
    destruct (decide (section = sec)) as [<-|Hother].
    + rewrite lookup_insert_eq in Hsec0. simplify_eq.
      destruct (decide (optionxform k = k0)) as [<-|Hk].
      * rewrite lookup_insert_eq in Hk0. by simplify_eq.
      * rewrite lookup_insert_ne in Hk0 by done. eauto.
    + rewrite lookup_insert_ne in Hsec0 by done. eauto.
Qed.

Lemma plain_value_of cp section k v :
  plain_values cp -> value_of cp section k = Some v ->
  contains_percent v = false.
Proof.
  intros [Hd Hs]. unfold value_of.
  destruct (_sections cp !! section) as [d|] eqn:Hsec; [|by eauto].
  intros Hv. apply lookup_union_Some_raw in Hv as [Hv|[_ Hv]]; eauto.
Qed.

(** Once the section is there, [has_option] is [offers]. *)
Lemma has_option_offers cp section k :
  contains cp section = true -> has_option cp section k = offers cp section k.
Proof.
  unfold contains, has_section, has_option, offers, names_defaults.
  intros Hc.
  destruct (bool_decide (section = "") || bool_decide (section = default_section))
    eqn:Hnd; cbn; [done|].
  apply orb_false_iff in Hnd as [_ Hne]. rewrite Hne in Hc. cbn in Hc.
  apply bool_decide_eq_true_1 in Hc as [d Hd]. rewrite Hd. cbn.
  done.
Qed.

Lemma value_of_offered cp section k :
  contains cp section = true -> offers cp section k = true ->
  is_Some (value_of cp section k).
Proof.
  intros Hc Ho.
  unfold offers, contains, has_section, names_defaults, value_of in *.
  destruct (_sections cp !! section) as [d|] eqn:Hd; cbn in *.
  - apply lookup_union_is_Some.
    apply orb_true_iff in Ho as [Ho|Ho].
    + apply andb_true_iff in Ho as [_ Ho].
      left. by apply bool_decide_eq_true_1 in Ho.
    + right. by apply bool_decide_eq_true_1 in Ho.
  - rewrite andb_false_r in Ho. cbn in Ho.
    by apply bool_decide_eq_true_1 in Ho.
Qed.

(** What [cp[section][option]] evaluates to is [value_of], when that has
    no [%]. *)
Lemma getitem_value_of cp section k v :
  contains cp section = true -> offers cp section k = true ->
  value_of cp section k = Some v ->
  contains_percent v = false ->
  getitem cp section k = Ok v.
Proof.
  intros Hc Ho Hv Hplain.
  unfold getitem. rewrite Hc, has_option_offers, Ho by done.
  cbn. unfold get, unify_values, value_of in *.
  destruct (_sections cp !! section) as [d|] eqn:Hd.
  - rewrite Hv. by apply interpolate_some_plain.
  - unfold contains, has_section in Hc. rewrite Hd in Hc.
    rewrite (bool_decide_eq_false_2 (is_Some None)) in Hc
      by (by intros [? ?]).
    rewrite orb_false_r in Hc. rewrite Hc, Hv.
    by apply interpolate_some_plain.
Qed.


Lemma set_contained cp section k v :
  contains cp section = true ->
  contains_percent v = false ->
  exists cp',
    configparser.set cp section k v = Ok cp'
    /\ contains cp' section = true
    /\ offers cp' section k = true
    /\ (offers cp section k = false -> keeps_pairs cp cp')
    /\ (forall sec k', optionxform k' <> optionxform k ->
                       offers cp' sec k' = offers cp sec k').
Proof.
  intros Hc Hplain. rewrite set_plain by done.
  destruct (names_defaults section) eqn:Hnd.
  - eexists. split; [reflexivity|].
    unfold contains, has_section, offers in *. cbn. rewrite Hnd. cbn.
    split_and!.
    + done.
    + rewrite lookup_insert_eq. apply bool_decide_eq_true_2. by eexists.
    + intros Ho. apply bool_decide_eq_false_1 in Ho.
      split; cbn; [|by eauto].
      intros k0 v0 Hk0. rewrite lookup_insert_ne; [done|].
      intros <-. apply Ho. by eexists.
    + intros sec k' Hne. by rewrite lookup_insert_ne.
  - unfold contains, has_section in Hc.
    unfold names_defaults in Hnd. apply orb_false_iff in Hnd as [Hne1 Hne2].
    rewrite Hne2 in Hc. cbn in Hc.
    apply bool_decide_eq_true_1 in Hc as [d Hd]. rewrite Hd.
    eexists. split; [reflexivity|].
    unfold contains, has_section, offers, names_defaults. cbn.
    rewrite Hne1, Hne2. cbn. rewrite !lookup_insert_eq, Hd. cbn.
    rewrite lookup_insert_eq.
    split_and!.
    + done.
    + rewrite bool_decide_eq_true_2 by (by eexists). done.
    + intros Ho. apply orb_false_iff in Ho as [Ho _].
      apply bool_decide_eq_false_1 in Ho.
      split; cbn; [by eauto|].
      intros sec d0 k0 v0 Hsec Hk0.
      destruct (decide (section = sec)) as [<-|Hother].
      * rewrite lookup_insert_eq. eexists. split; [done|].
        simplify_eq. rewrite lookup_insert_ne; [done|].
        intros <-. apply Ho. by eexists.
      * rewrite lookup_insert_ne by done. eauto.
    + intros sec k' Hne. f_equal. f_equal.
      destruct (decide (section = sec)) as [<-|Hother].
      * rewrite lookup_insert_eq, Hd. cbn. by rewrite lookup_insert_ne.
      * by rewrite lookup_insert_ne.
Qed.





Lemma rewrites_app (evs1 evs2 : list Event) :
  rewrites (evs1 ++ evs2) = rewrites evs1 ++ rewrites evs2.
Proof. unfold rewrites. apply flat_map_app. Qed.




(** What a section offers is what it lists itself or what [DEFAULT]
    lists. *)
Lemma offers_listed cp section k :
  section <> "" ->
  offers cp section k
  = listed cp section k || listed cp default_section k.
Proof.
  intros Hne. unfold offers, listed, names_defaults.
  rewrite (bool_decide_eq_false_2 (section = "")) by done.
  rewrite (bool_decide_eq_true_2 (default_section = default_section)) by done.
  cbn. case_bool_decide; cbn; [|done].
  by rewrite orb_diag.
Qed.



(** * Further properties of the script *)

(** ** Login: what a returned value tells *)

Lemma login_while_returns env fuel pass btn (s : Sys) b s' :
  login_while env fuel pass btn false s = (Ok b, s') ->
  obj s' = obj s
  /\ is_Some (driver (obj s))
  /\ exists dash evs,
       attrs (obj s) !! "DASHBOARD_URL" = Some dash
       /\ trace (world s') = trace (world s) ++ evs
       /\ attempts evs = 1
       /\ Forall (fun e => ends_session e = false) evs
       /\ if b then current_url (world s') = dash
          else exists line,
                 last evs = Some (Print line)
                 /\ (line = "ERROR: Login failed " +:+ current_url (world s')
                     \/ line = "ERROR: Failed to load dashboard after login "
                               +:+ current_url (world s')
                        /\ current_url (world s') <> dash).
Proof.
  destruct fuel as [|[|f]]; cbn; intros H; branches H; cbn;
    (split; [done|]); (split; [by eexists|]);
    eexists _, _; (split; [reflexivity|]);
    (split; [rewrite <- ?app_assoc; reflexivity|]);
    (split; [vm_compute; reflexivity|]);
    (split; [repeat constructor|]).
  all: try (by apply bool_decide_eq_true in Heqb2).
  all: eexists; (split; [reflexivity|]); auto.
  all: right; split; [done|]; by apply bool_decide_eq_false in Heqb2.
Qed.

(** X1. Whatever [login] returns, it returns with the browser open and the
    login button pressed once; [True] with the browser at the dashboard
    URL, [False] with an error line, naming the URL the browser is at, as
    the last thing printed. *)
Theorem login_returns_with_open_session env fuel (s : Sys) b s' :
  login env fuel s = (Ok b, s') ->
  is_Some (driver (obj s'))
  /\ exists dash evs,
       attrs (obj s') !! "DASHBOARD_URL" = Some dash
       /\ trace (world s') = trace (world s) ++ evs
       /\ attempts evs = 1
       /\ Forall (fun e => ends_session e = false) evs
       /\ if b then current_url (world s') = dash
          else exists line,
                 last evs = Some (Print line)
                 /\ (line = "ERROR: Login failed " +:+ current_url (world s')
                     \/ line = "ERROR: Failed to load dashboard after login "
                               +:+ current_url (world s')
                        /\ current_url (world s') <> dash).
Proof.
  unfold login. rewrite bind_run.
  destruct (open_login_form env s) as [[form| |] s1] eqn:Hform; [|done..].
  intros Hloop.
  apply login_while_returns in Hloop
    as (Hobj & Hd & dash & evs2 & Hdash & Ht2 & Ha2 & Hs2 & Hb).
  rewrite Hobj. split; [done|].
  assert (exists evs1,
             trace (world s1) = trace (world s) ++ evs1
             /\ attempts evs1 = 0
             /\ Forall (fun e => ends_session e = false) evs1)
    as (evs1 & Ht1 & Ha1 & Hs1).
  { clear -Hform. unfold open_login_form in Hform. cbn in Hform.
    branches Hform;
      (eexists; split; [rewrite <- ?app_assoc; reflexivity|]);
      (split; [vm_compute; reflexivity|repeat constructor]). }
  exists dash, (evs1 ++ evs2). rewrite Ht2, Ht1, app_assoc.
  split_and!; [done|done| |by apply Forall_app|].
  - unfold attempts in *. rewrite filter_app, length_app. lia.
  - destruct b; [done|]. destruct Hb as (line & Hlast & Hline).
    exists line. split; [|done].
    rewrite last_app, Hlast. done.
Qed.

Lemma login_returns_with_open_session_witness :
  let s := Sample.ready "roster.xlsx" in
  let s' := (login Sample.env0 2 s).2 in
  is_Some (driver (obj s'))
  /\ exists dash evs,
       attrs (obj s') !! "DASHBOARD_URL" = Some dash
       /\ trace (world s') = trace (world s) ++ evs
       /\ attempts evs = 1
       /\ Forall (fun e => ends_session e = false) evs
       /\ current_url (world s') = dash.
Proof.
  apply (login_returns_with_open_session Sample.env0 2
           (Sample.ready "roster.xlsx") true).
  vm_compute. reflexivity.
Defined.

(** ** Login: the wait for the login button

    That wait is outside the [try] of [login]. *)

Lemma main_login_raises env fuel (s0 : Sys) n s e s' :
  resolve_and_load env s0 = (Ok (S n), s) ->
  login env fuel s = (Raise e, s') ->
  main env fuel s0 = (Raise e, s').
Proof.
  intros Hload Hlogin. unfold main. rewrite bind_run, Hload.
  rewrite bool_decide_eq_false_2 by done. by rewrite bind_run, Hlogin.
Qed.

(** X2. When the login button does not become clickable within the configured
    wait, [login] neither returns [True] nor [False]: it raises
    [TimeoutException], with the browser started and nothing typed or
    pressed.  [main] lets the exception through from that very state, and
    finalizing the object then quits the browser. *)
Theorem login_button_timeout_propagates
    env fuel (s : Sys) email server browser base timeout secs :
  attrs (obj s) !! "email" = Some email ->
  attrs (obj s) !! "server" = Some server ->
  attrs (obj s) !! "browser" = Some browser ->
  attrs (obj s) !! "BASE_URL" = Some base ->
  attrs (obj s) !! "initial_wait_secs" = Some timeout ->
  float env timeout = Some secs ->
  clickable_within (site env base).2 NAME "login-button" secs = false ->
  exists s' d,
    login env fuel s = (Raise TimeoutException, s')
    /\ driver (obj s') = Some d
    /\ trace (world s') =
         trace (world s)
         ++ [Print ("Username: " +:+ email);
             GetPass ("Password for " +:+ server +:+ ": ");
             Launch d; Navigate base; WaitUntil secs]
    /\ forall s0 n,
         resolve_and_load env s0 = (Ok (S n), s) ->
         main env fuel s0 = (Raise TimeoutException, s')
         /\ script env fuel s0
            = (Raise TimeoutException, and_then s' DriverQuit).
Proof.
  intros Hemail Hserver Hbrowser Hbase Htimeout Hfloat Hclick.
  destruct (login env fuel s) as [r s'] eqn:Hlogin.
  pose proof Hlogin as Hrun.
  unfold login in Hlogin. rewrite bind_run in Hlogin.
  unfold open_login_form in Hlogin. cbn in Hlogin.
  rewrite Hemail in Hlogin. cbn in Hlogin.
  rewrite Hserver in Hlogin. cbn in Hlogin.
  rewrite Hbrowser in Hlogin. cbn in Hlogin.
  rewrite Hbase in Hlogin. cbn in Hlogin.
  rewrite Htimeout in Hlogin. cbn in Hlogin.
  rewrite Hfloat in Hlogin. cbn in Hlogin.
  unfold clickable_within in Hclick.
  destruct (clickable_after (site env base).2 NAME "login-button") as [d0|];
    [destruct (locate (site env base).2 NAME "login-button") as [e0|];
     [rewrite Hclick in Hlogin|]|];
    cbn in Hlogin; simplify_eq;
    (eexists _, _; split; [reflexivity|]; cbn;
     split; [reflexivity|];
     split; [by rewrite <- !app_assoc|]);
    intros s0 n Hload;
    pose proof (main_login_raises _ _ _ _ _ _ _ Hload Hrun) as Hm;
    (split; [exact Hm|]);
    unfold script; rewrite Hm; reflexivity.
Qed.

Lemma login_button_timeout_propagates_witness :
  let env := Sample.env_stalled "roster.xlsx" in
  let s := Sample.ready "roster.xlsx" in
  exists s' d,
    login env 2 s = (Raise TimeoutException, s')
    /\ driver (obj s') = Some d
    /\ trace (world s') =
         trace (world s)
         ++ [Print ("Username: " +:+ "user@example.com");
             GetPass ("Password for " +:+ "tlc.example" +:+ ": ");
             Launch d; Navigate "https://tlc.example/"; WaitUntil 30]
    /\ forall s0 n,
         resolve_and_load env s0 = (Ok (S n), s) ->
         main env 2 s0 = (Raise TimeoutException, s')
         /\ script env 2 s0
            = (Raise TimeoutException, and_then s' DriverQuit).
Proof.
  apply (login_button_timeout_propagates (Sample.env_stalled "roster.xlsx") 2
           (Sample.ready "roster.xlsx") "user@example.com" "tlc.example"
           "Firefox" "https://tlc.example/" "30" 30);
    reflexivity.
Defined.

(** ** Roster loading: every outcome *)



(** ** Recording attendance *)

Lemma clicked_elements_app (evs1 evs2 : list Event) :
  clicked_elements (evs1 ++ evs2) = clicked_elements evs1 ++ clicked_elements evs2.
Proof. unfold clicked_elements. apply flat_map_app. Qed.

(** What choosing the event does when it returns. *)
Lemma select_event_trace env (s : Sys) sev s0 :
  select_event env s = (Ok sev, s0) ->
  exists evs e v,
    trace (world s0) = trace (world s) ++ evs
    /\ lookups evs =
         [(ID, "event-id"); (ID, "select2-event-id-container");
          (ID, ID_LESSON_PLAN_CBOX)]
    /\ Print ("Lesson plan checked: " +:+ fmt v) ∈ evs
    /\ clicked_elements evs
       = (if bool_decide (v = Some "0") then [ParentOf e] else [])
    /\ (v <> Some "0" ->
        locate (page (world s0)) ID ID_LESSON_PLAN_CBOX = Some e
        /\ value_attribute (page (world s0)) e = v).
Proof.
  unfold select_event. cbn. intros H.
  branches H; cbn; rewrite <- ?app_assoc; cbn;
    eexists _, _, _; (split; [reflexivity|]); (split; [reflexivity|]);
    (split; [apply (list_elem_of_lookup_2 _ 13); reflexivity|]);
    rewrite Heqb0; (split; [reflexivity|]); intros Hne;
    first [by apply bool_decide_eq_true in Heqb0|done].
Qed.

(** X4. The event selection, step by step, on a portal that shows the
    controls.  The value it yields is the value of the option selected on
    the page as it is once the event is chosen.  The lesson-plan box is
    the element found on that page by the id [use-lesson-plans]; it is
    clicked, through its parent and once, exactly when its value is ['0'],
    and nothing else is clicked directly.  Three elements are looked up by
    id on the way. *)
Theorem select_event_ticks_lesson_plans_once
    env (s : Sys) server d sel c opt box :
  attrs (obj s) !! "server" = Some server ->
  driver (obj s) = Some d ->
  let url := "https://" +:+ server +:+ "/attendance" in
  let opened := (site env url).2 in
  locate opened ID "event-id" = Some sel ->
  lower (tag_name opened sel) = "select" ->
  locate opened ID "select2-event-id-container" = Some c ->
  let chosen := event_chosen env url (event (args (obj s))) c in
  selected_option chosen sel = Some opt ->
  locate chosen ID "use-lesson-plans" = Some box ->
  let unticked := bool_decide (value_attribute chosen box = Some "0") in
  exists s0 evs,
    select_event env s = (Ok (value_attribute chosen opt), s0)
    /\ obj s0 = obj s
    /\ trace (world s0) = trace (world s) ++ evs
    /\ lookups evs =
         [(ID, "event-id"); (ID, "select2-event-id-container");
          (ID, "use-lesson-plans")]
    /\ Print ("Lesson plan checked: " +:+ fmt (value_attribute chosen box))
       ∈ evs
    /\ clicked_elements evs = (if unticked then [ParentOf box] else [])
    /\ page (world s0)
       = (if unticked then react env (ElementClick (ParentOf box)) chosen
          else chosen).
Proof.
  intros Hserver Hd url opened Hsel Htag Hc chosen Hopt Hbox unticked.
  subst url opened chosen unticked. unfold event_chosen in *.
  unfold select_event, ID_LESSON_PLAN_CBOX. cbn in *. rewrite Hserver. cbn.
  repeat first
    [ rewrite Hd | rewrite Hsel | rewrite Htag | rewrite Hc | rewrite Hopt
    | rewrite Hbox
    | rewrite (bool_decide_eq_true_2 ("select" = "select")) by done
    | progress cbn ].
  case_bool_decide as Hv; cbn.
  all: eexists _, _; (split; [reflexivity|]); cbn.
  all: split; [reflexivity|].
  all: split; [rewrite <- ?app_assoc; reflexivity|].
  all: split; [reflexivity|].
  all: split; [apply (list_elem_of_lookup_2 _ 13); reflexivity|].
  all: split; reflexivity.
Qed.

Lemma select_event_ticks_lesson_plans_once_witness :
  let env := Sample.env0 in
  let s := Sample.logged_in [VStr "A1"] in
  let box := Node "use-lesson-plans" in
  let chosen :=
    event_chosen env ("https://" +:+ "tlc.example" +:+ "/attendance")
      (event (args (obj s))) (Node "select2-event-id-container") in
  let unticked := bool_decide (value_attribute chosen box = Some "0") in
  exists s0 evs,
    select_event env s
    = (Ok (value_attribute chosen (Node "event-option")), s0)
    /\ obj s0 = obj s
    /\ trace (world s0) = trace (world s) ++ evs
    /\ lookups evs =
         [(ID, "event-id"); (ID, "select2-event-id-container");
          (ID, "use-lesson-plans")]
    /\ Print ("Lesson plan checked: " +:+ fmt (value_attribute chosen box))
       ∈ evs
    /\ clicked_elements evs = (if unticked then [ParentOf box] else [])
    /\ page (world s0)
       = (if unticked then react env (ElementClick (ParentOf box)) chosen
          else chosen).
Proof.
  intros env s box chosen unticked.
  apply (select_event_ticks_lesson_plans_once Sample.env0
           (Sample.logged_in [VStr "A1"]) "tlc.example" Firefox
           (Node "event-id") (Node "select2-event-id-container")
           (Node "event-option") (Node "use-lesson-plans"));
    vm_compute; reflexivity.
Defined.

(** X5. When [recordAttendance] returns, it has looked up the three controls
    of the event selection and then the checkbox of every entry of the
    roster loaded, once each and in roster order, by the XPath built from
    the entry and the value the event selection yielded; and the last
    thing it did was to print the summary, whose two numbers are both the
    length of the roster. *)
Theorem recordAttendance_summary env (s : Sys) sev s1 s' :
  select_event env s = (Ok sev, s1) ->
  recordAttendance env s = (Ok tt, s') ->
  exists roster evs,
    attendees (obj s) = Some roster
    /\ attendees (obj s') = Some roster
    /\ trace (world s') = trace (world s) ++ evs
    /\ lookups evs =
         [(ID, "event-id"); (ID, "select2-event-id-container");
          (ID, "use-lesson-plans")]
         ++ ((fun a => (XPATH, attendeeXPath a sev)) <$> roster)
    /\ last evs =
         Some (Print ("End track attendance (" +:+ pretty (length roster)
                      +:+ ", " +:+ pretty (length roster) +:+ ")")).
Proof.
  intros Hsel. unfold recordAttendance. rewrite bind_run, Hsel.
  destruct (select_event_obj _ _ _ _ Hsel) as [Hobj0 _].
  apply select_event_trace in Hsel as (evs0 & _ & _ & Ht0 & Hl0 & _).
  cbn.
  destruct (attendees (obj s1)) as [roster|] eqn:Hroster; [|done].
  cbn.
  destruct (markAttendees env sev 0 roster s1) as [[n| |] s2] eqn:Hloop;
    [|done..].
  apply markAttendees_trace in Hloop as (Hobj1 & evs1 & k & Ht1 & _ & Hl1 & Hok).
  destruct (Hok n eq_refl) as [-> ->].
  rewrite Hobj1, Hroster. cbn. intros [= <-]. cbn.
  exists roster. eexists. rewrite Hobj1, <- Hobj0.
  split; [done|]. split; [done|].
  rewrite Ht1, Ht0, <- !app_assoc. split; [reflexivity|].
  rewrite !lookups_app, Hl0, Hl1, take_ge by done. cbn.
  split; [by rewrite app_nil_r|].
  by rewrite !app_assoc, last_snoc.
Qed.

Lemma recordAttendance_summary_witness :
  let s := Sample.logged_in [VStr "A1"; VStr "A2"] in
  let s' := (recordAttendance Sample.env0 s).2 in
  exists roster evs,
    attendees (obj s) = Some roster
    /\ attendees (obj s') = Some roster
    /\ trace (world s') = trace (world s) ++ evs
    /\ lookups evs =
         [(ID, "event-id"); (ID, "select2-event-id-container");
          (ID, "use-lesson-plans")]
         ++ ((fun a => (XPATH, attendeeXPath a (Some "7"))) <$> roster)
    /\ last evs =
         Some (Print ("End track attendance (" +:+ pretty (length roster)
                      +:+ ", " +:+ pretty (length roster) +:+ ")")).
Proof.
  apply (recordAttendance_summary Sample.env0
           (Sample.logged_in [VStr "A1"; VStr "A2"]) (Some "7")
           (select_event Sample.env0
              (Sample.logged_in [VStr "A1"; VStr "A2"])).2);
    vm_compute; reflexivity.
Defined.

(** X6. A roster entry whose checkbox is found with the value ['0'] gets the
    hover, pause and click on the checkbox's parent, preceded by a scroll
    into view when the browser is Firefox and by nothing for Chrome and
    Edge; these are the only pointer actions of the pass, and the loop goes
    on with the next entry on the page as the portal left it. *)
Theorem markAttendees_clicks_unchecked env sev n a rest (s : Sys) d e :
  driver (obj s) = Some d ->
  locate (page (world s)) XPATH (attendeeXPath a sev) = Some e ->
  value_attribute (page (world s)) e = Some "0" ->
  exists s1 evs,
    markAttendees env sev n (a :: rest) s = markAttendees env sev (S n) rest s1
    /\ obj s1 = obj s
    /\ trace (world s1) = trace (world s) ++ evs
    /\ lookups evs = [(XPATH, attendeeXPath a sev)]
    /\ pointer_actions evs =
         match d with
         | Firefox => [ScrollIntoView (ParentOf e)]
         | Chrome | Edge => []
         end
         ++ [Perform (move_to_element (ParentOf e)); Perform (pause 1);
             Perform (click (ParentOf e))].
Proof.
  intros Hd He Hv. cbn. unfold markAttendee. cbn.
  rewrite Hd. cbn. rewrite He. cbn. rewrite Hv. cbn.
  rewrite bool_decide_eq_true_2 by done. cbn. rewrite Hd. cbn.
  destruct d; cbn; rewrite ?Hd; cbn;
    eexists _, _; (split; [reflexivity|]); cbn;
    (split; [reflexivity|]);
    (split; [rewrite <- !app_assoc; reflexivity|]);
    split; reflexivity.
Qed.

Lemma markAttendees_clicks_unchecked_witness :
  let s := Sample.marking [VStr "A1"] in
  exists s1 evs,
    markAttendees Sample.env0 (Some "7") 0 [VStr "A1"] s
      = markAttendees Sample.env0 (Some "7") 1 [] s1
    /\ obj s1 = obj s
    /\ trace (world s1) = trace (world s) ++ evs
    /\ lookups evs = [(XPATH, "//input[@id = 'A1-7-attended']")]
    /\ pointer_actions evs =
         [ScrollIntoView (ParentOf (Node "A1-7-attended"))]
         ++ [Perform (move_to_element (ParentOf (Node "A1-7-attended")));
             Perform (pause 1);
             Perform (click (ParentOf (Node "A1-7-attended")))].
Proof.
  apply (markAttendees_clicks_unchecked Sample.env0 (Some "7") 0 (VStr "A1") []
           (Sample.marking [VStr "A1"]) Firefox (Node "A1-7-attended"));
    reflexivity.
Defined.

(** ** The main sequence after login *)

Lemma login_driver env fuel (s : Sys) b s' :
  login env fuel s = (Ok b, s') -> is_Some (driver (obj s')).
Proof.
  unfold login. rewrite bind_run.
  destruct (open_login_form env s) as [[form| |] s1] eqn:Hform; [|done..].
  intros Hloop.
  apply login_while_returns in Hloop as (Hobj & Hd & _).
  by rewrite Hobj.
Qed.

Lemma select_event_keeps_obj env (s : Sys) r s0 :
  select_event env s = (r, s0) -> obj s0 = obj s.
Proof.
  unfold select_event. cbn. intros H. branches H; reflexivity.
Qed.

Lemma recordAttendance_obj env (s : Sys) r s' :
  recordAttendance env s = (r, s') ->
  obj s' = obj s /\ forall u, r = Ok u -> is_Some (attrs (obj s) !! "server").
Proof.
  unfold recordAttendance. rewrite bind_run.
  destruct (select_event env s) as [r0 s0] eqn:Hsel.
  pose proof (select_event_keeps_obj _ _ _ _ Hsel) as Hobj0.
  assert (Hserver : forall sev, r0 = Ok sev ->
                                is_Some (attrs (obj s) !! "server")).
  { intros sev ->. unfold select_event in Hsel. cbn in Hsel.
    destruct (attrs (obj s) !! "server"); [by eexists|].
    cbn in Hsel. by simplify_eq. }
  destruct r0 as [sev| |]; [|intros; by simplify_eq..].
  cbn. destruct (attendees (obj s0)) as [roster|] eqn:Hroster;
    [|cbn; intros; by simplify_eq].
  cbn.
  destruct (markAttendees env sev 0 roster s0) as [r1 s1] eqn:Hloop.
  apply markAttendees_trace in Hloop as (Hobj1 & _).
  destruct r1 as [n1| |]; [|intros; simplify_eq; split; [congruence|done]..].
  rewrite Hobj1, Hroster. cbn. intros [= <- <-]. cbn.
  split; [congruence|eauto].
Qed.

(** X7. [main] has no handler around the marking: when login succeeded, the
    roster was reloaded and [recordAttendance] raises, [main] ends with
    that exception in the very state [recordAttendance] left, so without
    the second pause, the logout request and the closing of the window;
    the browser is only quit when the object is finalized. *)
Theorem main_marking_error_skips_logout
    env fuel (s0 : Sys) n s1 s2 m s3 e s4 :
  resolve_and_load env s0 = (Ok (S n), s1) ->
  login env fuel s1 = (Ok true, s2) ->
  loadAttendanceData env (and_then s2 (Sleep 5)) = (Ok m, s3) ->
  recordAttendance env s3 = (Raise e, s4) ->
  main env fuel s0 = (Raise e, s4)
  /\ script env fuel s0 = (Raise e, and_then s4 DriverQuit).
Proof.
  intros Hload Hlogin Hreload Hrec.
  assert (Hmain : main env fuel s0 = (Raise e, s4)).
  { unfold main. rewrite bind_run, Hload.
    rewrite bool_decide_eq_false_2 by done.
    rewrite bind_run, Hlogin. cbn. unfold and_then in Hreload.
    by rewrite Hreload, Hrec. }
  split; [exact Hmain|].
  destruct (login_driver _ _ _ _ _ Hlogin) as [d Hd].
  apply offline_loadAttendanceData in Hreload as [Hd3 _]. cbn in Hd3.
  apply recordAttendance_obj in Hrec as [Hobj4 _].
  unfold script. rewrite Hmain. unfold __del__. cbn.
  by rewrite Hobj4, Hd3, Hd.
Qed.

Lemma main_marking_error_skips_logout_witness :
  let env := Sample.env_stranger in
  let s1 := (resolve_and_load env Sample.sys0).2 in
  let s2 := (login env 2 s1).2 in
  let s3 := (loadAttendanceData env (and_then s2 (Sleep 5))).2 in
  let s4 := (recordAttendance env s3).2 in
  main env 2 Sample.sys0 = (Raise NoSuchElementException, s4)
  /\ script env 2 Sample.sys0
     = (Raise NoSuchElementException, and_then s4 DriverQuit).
Proof.
  intros env s1 s2 s3 s4.
  apply (main_marking_error_skips_logout env 2 Sample.sys0 2 s1 s2 3 s3
           NoSuchElementException s4); vm_compute; reflexivity.
Defined.

(** X8. When every step succeeds, [main] ends by pausing five seconds,
    requesting the logout page of the configured server and closing the
    window, in this order and after everything [recordAttendance] did;
    finalizing the object then quits the browser. *)
Theorem main_success_ends_with_logout
    env fuel (s0 : Sys) n s1 s2 m s3 s4 :
  resolve_and_load env s0 = (Ok (S n), s1) ->
  login env fuel s1 = (Ok true, s2) ->
  loadAttendanceData env (and_then s2 (Sleep 5)) = (Ok m, s3) ->
  recordAttendance env s3 = (Ok tt, s4) ->
  exists server s5,
    attrs (obj s4) !! "server" = Some server
    /\ main env fuel s0 = (Ok tt, s5)
    /\ script env fuel s0 = (Ok tt, and_then s5 DriverQuit)
    /\ obj s5 = obj s4
    /\ trace (world s5) =
         trace (world s4)
         ++ [Sleep 5; Navigate ("https://" +:+ server +:+ "/logout");
             DriverClose].
Proof.
  intros Hload Hlogin Hreload Hrec.
  destruct (login_driver _ _ _ _ _ Hlogin) as [d Hd].
  pose proof Hreload as Hreload'.
  apply offline_loadAttendanceData in Hreload' as [Hd3 _]. cbn in Hd3.
  destruct (recordAttendance_obj _ _ _ _ Hrec) as [Hobj4 Hserver].
  destruct (Hserver tt eq_refl) as [server Hs].
  assert (Hd4 : driver (obj s4) = Some d) by (by rewrite Hobj4, Hd3).
  rewrite <- Hobj4 in Hs.
  destruct (main env fuel s0) as [r s5] eqn:Hmain.
  assert (Hscript : script env fuel s0 = (r, (__del__ s5).2)).
  { unfold script. by rewrite Hmain. }
  unfold main in Hmain. rewrite bind_run, Hload in Hmain.
  rewrite bool_decide_eq_false_2 in Hmain by done.
  rewrite bind_run, Hlogin in Hmain. cbn in Hmain.
  unfold and_then in Hreload. rewrite Hreload, Hrec in Hmain.
  unfold logout in Hmain. cbn in Hmain. rewrite Hs in Hmain. cbn in Hmain.
  repeat (rewrite Hd4 in Hmain; cbn in Hmain). simplify_eq.
  exists server. eexists.
  split; [exact Hs|]. split; [reflexivity|].
  split; [|split; [reflexivity|cbn; by rewrite <- !app_assoc]].
  rewrite Hscript. unfold __del__. cbn. by rewrite Hd4.
Qed.

Lemma main_success_ends_with_logout_witness :
  let env := Sample.env0 in
  let s1 := (resolve_and_load env Sample.sys0).2 in
  let s2 := (login env 2 s1).2 in
  let s3 := (loadAttendanceData env (and_then s2 (Sleep 5))).2 in
  let s4 := (recordAttendance env s3).2 in
  exists server s5,
    attrs (obj s4) !! "server" = Some server
    /\ main env 2 Sample.sys0 = (Ok tt, s5)
    /\ script env 2 Sample.sys0 = (Ok tt, and_then s5 DriverQuit)
    /\ obj s5 = obj s4
    /\ trace (world s5) =
         trace (world s4)
         ++ [Sleep 5; Navigate ("https://" +:+ server +:+ "/logout");
             DriverClose].
Proof.
  intros env s1 s2 s3 s4.
  apply (main_success_ends_with_logout env 2 Sample.sys0 1 s1 s2 2 s3 s4);
    vm_compute; reflexivity.
Defined.

(** ** Configuration resolution: the values *)

Lemma value_of_ensure cp section sec k :
  value_of (ensure cp section) sec k = value_of cp sec k.
Proof.
  unfold ensure. destruct (contains cp section) eqn:Hc; [done|].
  unfold contains, has_section, setitem_empty in *.
  apply orb_false_iff in Hc as [Hne Hsec]. rewrite Hne.
  apply bool_decide_eq_false_1 in Hsec.
  unfold value_of. cbn.
  destruct (decide (section = sec)) as [<-|Hother].
  - rewrite lookup_insert_eq.
    destruct (_sections cp !! section) eqn:Hs; [destruct Hsec; by eexists|].
    by rewrite (left_id_L ∅ (∪)).
  - by rewrite lookup_insert_ne.
Qed.

Lemma contains_ensure cp section sec :
  contains cp sec = true -> contains (ensure cp section) sec = true.
Proof.
  unfold ensure. destruct (contains cp section) eqn:Hc; [done|].
  unfold contains, has_section, setitem_empty in *.
  apply orb_false_iff in Hc as [Hne Hsec]. rewrite Hne. cbn.
  intros H. apply orb_true_iff in H as [H|H]; [by rewrite H|].
  apply bool_decide_eq_true_1 in H.
  apply orb_true_iff. right. apply bool_decide_eq_true_2.
  destruct (decide (section = sec)) as [<-|Hother].
  - rewrite lookup_insert_eq. by eexists.
  - by rewrite lookup_insert_ne.
Qed.

Lemma proper_sections_ensure cp section :
  proper_sections cp -> proper_sections (ensure cp section).
Proof.
  unfold ensure. destruct (contains cp section) eqn:Hc; [done|].
  unfold contains, has_section, setitem_empty in *.
  apply orb_false_iff in Hc as [Hne Hsec]. rewrite Hne.
  intros Hp sec d Hnd. cbn.
  destruct (decide (section = sec)) as [<-|Hother].
  - rewrite lookup_insert_eq. by intros [= <-].
  - rewrite lookup_insert_ne by done. by apply Hp.
Qed.

Lemma set_resolved cp section k v :
  contains cp section = true ->
  contains_percent v = false ->
  exists cp' v',
    configparser.set cp section k v = Ok cp'
    /\ contains cp' section = true
    /\ offers cp' section k = true
    /\ value_of cp' section k = Some v'
    /\ (proper_sections cp -> v' = v)
    /\ (forall sec k', optionxform k' <> optionxform k ->
                       value_of cp' sec k' = value_of cp sec k'
                       /\ offers cp' sec k' = offers cp sec k')
    /\ (forall sec, contains cp sec = true -> contains cp' sec = true)
    /\ (proper_sections cp -> proper_sections cp').
Proof.
  intros Hc Hplain.
  destruct (set_contained cp section k v Hc Hplain)
    as (cp' & Hset & Hc' & Ho' & _ & Hoff).
  destruct (value_of_offered cp' section k Hc' Ho') as [v' Hv'].
  exists cp', v'. split_and!; try done.
  - (* the value read back is the one written *)
    intros Hp. rewrite set_plain in Hset by done.
    destruct (names_defaults section) eqn:Hnd.
    + simplify_eq. unfold value_of in Hv'. cbn in Hv'.
      destruct (_sections cp !! section) as [d|] eqn:Hd.
      * rewrite (Hp _ _ Hnd Hd), (left_id_L ∅ (∪)), lookup_insert_eq in Hv'.
        congruence.
      * rewrite lookup_insert_eq in Hv'. congruence.
    + destruct (_sections cp !! section) as [d|] eqn:Hd; [|done].
      simplify_eq. unfold value_of in Hv'. cbn in Hv'.
      rewrite lookup_insert_eq in Hv'.
      erewrite lookup_union_Some_l in Hv' by apply lookup_insert_eq.
      congruence.
  - (* the other keys *)
    intros sec k' Hne. split; [|by apply Hoff].
    rewrite set_plain in Hset by done.
    destruct (names_defaults section) eqn:Hnd.
    + simplify_eq. unfold value_of. cbn.
      destruct (_sections cp !! sec) as [d|].
      * by rewrite !lookup_union, lookup_insert_ne.
      * by rewrite lookup_insert_ne.
    + destruct (_sections cp !! section) as [d|] eqn:Hd; [|done].
      simplify_eq. unfold value_of. cbn.
      destruct (decide (section = sec)) as [<-|Hother].
      * rewrite lookup_insert_eq, Hd.
        by rewrite !lookup_union, lookup_insert_ne.
      * by rewrite lookup_insert_ne.
  - (* sections stay *)
    intros sec Hsec. rewrite set_plain in Hset by done.
    destruct (names_defaults section) eqn:Hnd.
    + by simplify_eq.
    + destruct (_sections cp !! section) as [d|] eqn:Hd; [|done].
      simplify_eq. unfold contains, has_section in *. cbn.
      apply orb_true_iff in Hsec as [Hsec|Hsec]; [by rewrite Hsec|].
      apply bool_decide_eq_true_1 in Hsec.
      apply orb_true_iff. right. apply bool_decide_eq_true_2.
      destruct (decide (section = sec)) as [<-|Hother].
      * rewrite lookup_insert_eq. by eexists.
      * by rewrite lookup_insert_ne.
  - (* no section gets the name of the defaults *)
    intros Hp sec d0 Hnd0. rewrite set_plain in Hset by done.
    destruct (names_defaults section) eqn:Hnd.
    + simplify_eq. cbn. by apply Hp.
    + destruct (_sections cp !! section) as [d|] eqn:Hd; [|done].
      simplify_eq. cbn.
      rewrite lookup_insert_ne by congruence. by apply Hp.
Qed.

(** One recognized key, with the value it resolves to. *)
Lemma readConfigItem_resolved env section key text dflt (s : Sys) cp :
  config (obj s) = Some cp ->
  plain_values cp ->
  contains_percent dflt = false ->
  contains_percent (keyboard env (stdin_pos (world s))) = false ->
  exists cp' v evs pos,
    readConfigItem env section key text dflt s =
      (Ok tt,
       {| obj :=
            {| args := args (obj s); driver := driver (obj s);
               attrs := <[key := v]> (attrs (obj s));
               config := Some cp';
               configChanged :=
                 if offers cp section key then configChanged (obj s)
                 else Some true;
               attendees := attendees (obj s) |};
          world :=
            {| trace := trace (world s) ++ evs; stdin_pos := pos;
               disk_config := disk_config (world s);
               current_url := current_url (world s);
               page := page (world s);
               submissions := submissions (world s) |} |})
    /\ resolved env cp section key dflt (stdin_pos (world s)) cp' v pos
    /\ prompts evs = (if offers cp section key then [] else [text])
    /\ rewrites evs = []
    /\ plain_values cp'.
Proof.
  intros Hcfg Hpl Hdflt Hline.
  pose proof (plain_values_ensure cp section Hpl) as Hpl1.
  assert (Hval :
            contains_percent
              (typed_or_default env (stdin_pos (world s)) dflt) = false)
    by (unfold typed_or_default; by case_bool_decide).
  pose proof (ensure_contains cp section) as Hc1.
  pose proof (ensure_offers cp section) as Hoff1.
  pose proof (value_of_ensure cp section) as Hval1.
  pose proof (contains_ensure cp section) as Hcon1.
  pose proof (proper_sections_ensure cp section) as Hp1.
  assert (Hrun : forall s1,
             config (obj s1) = Some (ensure cp section) ->
             args (obj s1) = args (obj s) -> driver (obj s1) = driver (obj s) ->
             attrs (obj s1) = attrs (obj s) ->
             configChanged (obj s1) = configChanged (obj s) ->
             attendees (obj s1) = attendees (obj s) -> world s1 = world s ->
             readConfigItem env section key text dflt s
             = readConfigItem env section key text dflt s1).
  { intros [[] w1] E1 E2 E3 E4 E5 E6 E7. cbn in *. subst.
    unfold readConfigItem. cbn. rewrite Hcfg. cbn.
    unfold ensure. destruct (contains cp section) eqn:Hc; cbn.
    - rewrite Hcfg, Hc. cbn. destruct s as [[] ?]; cbn in *. by subst.
    - unfold ensure in Hc1. rewrite Hc in Hc1. rewrite Hc1. cbn. done. }
  rewrite (Hrun (set_config (ensure cp section) s).2) by done.
  clear Hrun.
  set (cp1 := ensure cp section) in *.
  unfold readConfigItem. cbn. rewrite Hc1. cbn.
  rewrite has_option_offers, Hoff1 by done.
  destruct (offers cp section key) eqn:Ho; cbn.
  - destruct (value_of_offered cp1 section key) as [v Hv];
      [done|by rewrite Hoff1|].
    rewrite (getitem_value_of cp1 section key v)
      by first [by rewrite ?Hoff1|by eapply plain_value_of].
    cbn. exists cp1, v, [], (stdin_pos (world s)). rewrite app_nil_r.
    split; [by destruct s as [[] []]|].
    split; [|done].
    unfold resolved. rewrite Ho, Hoff1, <- Hval1.
    split_and!; auto.
  - destruct (set_resolved cp1 section key
                (typed_or_default env (stdin_pos (world s)) dflt) Hc1 Hval)
      as (cp2 & v & Hset & Hc2 & Ho2 & Hv2 & Hvp & Hoth & Hcon2 & Hp2).
    pose proof (plain_values_set _ _ _ _ _ Hpl1 Hval Hset) as Hpl2.
    pose proof (plain_value_of _ _ _ _ Hpl2 Hv2) as Hplv.
    unfold typed_or_default in Hset.
    case_bool_decide; cbn;
      rewrite setitem_contained by done; rewrite Hset; cbn;
      rewrite (getitem_value_of cp2 section key v) by done; cbn;
      exists cp2, v; eexists; eexists;
      (split; [unfold with_trace; cbn; rewrite <- ?app_assoc; reflexivity|]);
      (split; [|done]);
      unfold resolved; rewrite Ho;
      split_and!; auto;
      try (intros sec k' Hne; destruct (Hoth sec k' Hne) as [-> ->];
           by rewrite Hval1, Hoff1);
      try (intros Hp; rewrite Hvp by auto; unfold typed_or_default;
           by rewrite ?bool_decide_eq_true_2, ?bool_decide_eq_false_2
             by done).
Qed.

Lemma value_of_lookup cp section k :
  value_of cp section k
  = union_with (fun x _ => Some x)
      (_sections cp !! section ≫= (.!! optionxform k))
      (_defaults cp !! optionxform k).
Proof.
  unfold value_of. destruct (_sections cp !! section) as [d|]; cbn.
  - by rewrite lookup_union.
  - by destruct (_defaults cp !! optionxform k).
Qed.

Lemma offers_lookup cp section k :
  proper_sections cp ->
  offers cp section k
  = bool_decide
      (is_Some (_sections cp !! section ≫= (.!! optionxform k)))
    || bool_decide (is_Some (_defaults cp !! optionxform k)).
Proof.
  intros Hp. unfold offers. f_equal.
  destruct (names_defaults section) eqn:Hnd; cbn; [|done].
  destruct (_sections cp !! section) as [d|] eqn:Hd; cbn.
  - rewrite (Hp _ _ Hnd Hd), lookup_empty.
    first [done|symmetry; apply bool_decide_eq_false_2; by intros [? ?]].
  - first [done|symmetry; apply bool_decide_eq_false_2; by intros [? ?]].
Qed.

(** X9. Where the value of a setting comes from, as long as no [%] is
    involved (none in a value of the configuration, in the default or in
    the line typed): the key's section of the file when it lists the key,
    else the [DEFAULT] section when that lists it, else the line the
    operator types, else (an empty line) the default.  The operator is
    prompted only in the last two cases.  The attribute set is that value,
    and so is what the configuration then holds for the key. *)
Theorem readConfigItem_value_precedence
    env section key text dflt (s : Sys) cp :
  config (obj s) = Some cp ->
  proper_sections cp ->
  plain_values cp ->
  contains_percent dflt = false ->
  contains_percent (keyboard env (stdin_pos (world s))) = false ->
  exists s' cp' v evs,
    readConfigItem env section key text dflt s = (Ok tt, s')
    /\ attrs (obj s') !! key = Some v
    /\ config (obj s') = Some cp'
    /\ getitem cp' section key = Ok v
    /\ trace (world s') = trace (world s) ++ evs
    /\ match _sections cp !! section ≫= (.!! optionxform key),
             _defaults cp !! optionxform key with
       | Some own, _ => v = own /\ prompts evs = []
       | None, Some inherited => v = inherited /\ prompts evs = []
       | None, None =>
           v = typed_or_default env (stdin_pos (world s)) dflt
           /\ prompts evs = [text]
       end.
Proof.
  intros Hcfg Hp Hpl Hdflt Hline.
  destruct (readConfigItem_resolved env section key text dflt s cp
              Hcfg Hpl Hdflt Hline)
    as (cp' & v & evs & pos & Hrun & Hres & Hprompts & _ & Hpl').
  destruct Hres as (Hc & Ho & Hv & _ & _ & _ & Hsrc).
  rewrite (offers_lookup cp section key Hp) in Hsrc, Hprompts.
  rewrite value_of_lookup in Hsrc.
  eexists _, cp', v, evs. split; [exact Hrun|].
  split; [apply lookup_insert_eq|]. split; [done|].
  split; [apply getitem_value_of; [done..|by eapply plain_value_of]|].
  split; [done|].
  destruct (_sections cp !! section ≫= (.!! optionxform key)) as [own|];
    destruct (_defaults cp !! optionxform key) as [inherited|];
    cbn in Hsrc, Hprompts.
  - destruct Hsrc as [[= <-] _]. done.
  - destruct Hsrc as [[= <-] _]. done.
  - destruct Hsrc as [[= <-] _]. done.
  - destruct Hsrc as [_ Hsrc]. auto.
Qed.

Lemma shared_config_plain : plain_values Sample.shared_config.
Proof.
  split; [|intros sec d k v Hd; vm_compute in Hd; discriminate].
  apply map_Forall_lookup.
  unfold Sample.shared_config.
  cbn [_defaults list_to_map foldr uncurry fst snd curry].
  repeat (apply map_Forall_insert_2; [reflexivity|]).
  apply map_Forall_empty.
Qed.

Lemma readConfigItem_value_precedence_witness :
  let env := Sample.env0 in
  let cp := Sample.shared_config in
  let s :=
    {| obj :=
         {| args := args Sample.blank; driver := None; attrs := ∅;
            config := Some cp; configChanged := Some false;
            attendees := None |};
       world := Sample.world0 |} in
  exists s' cp' v evs,
    readConfigItem env "tlc.example" "email"
      "Trail Life Connect username: " "user@example.com" s = (Ok tt, s')
    /\ attrs (obj s') !! "email" = Some v
    /\ config (obj s') = Some cp'
    /\ getitem cp' "tlc.example" "email" = Ok v
    /\ trace (world s') = trace (world s) ++ evs
    /\ v = "scout@example.com" /\ prompts evs = [].
Proof.
  intros env cp s.
  destruct (readConfigItem_value_precedence env "tlc.example" "email"
           "Trail Life Connect username: " "user@example.com" s cp)
    as (s' & cp' & v & evs & H1 & H2 & H3 & H4 & H5 & H6).
  - reflexivity.
  - intros sec d _ Hd. vm_compute in Hd. discriminate.
  - exact shared_config_plain.
  - reflexivity.
  - reflexivity.
  - exists s', cp', v, evs. repeat (split; [assumption|]). exact H6.
Defined.











(** ** Configuration resolution: what goes wrong, and the file *)

(** X14. A value that [BasicInterpolation] refuses (one with a [%] that is
    neither doubled nor the start of a reference [%(name)s]) ends the
    resolution of a key the configuration does not offer: after the
    prompt, and the line typed consumed, [readConfigItem] raises
    [ValueError]; the attribute is not set, the configuration holds
    nothing for the key (only the section was created), it is not marked
    as changed, and the file is not written. *)
Theorem readConfigItem_refuses_percent
    env section key text dflt (s : Sys) cp :
  config (obj s) = Some cp ->
  offers cp section key = false ->
  let line := typed_or_default env (stdin_pos (world s)) dflt in
  before_set line = Raise (ValueError line) ->
  exists s' evs,
    readConfigItem env section key text dflt s = (Raise (ValueError line), s')
    /\ attrs (obj s') = attrs (obj s)
    /\ config (obj s') = Some (ensure cp section)
    /\ configChanged (obj s') = configChanged (obj s)
    /\ trace (world s') = trace (world s) ++ evs
    /\ prompts evs = [text]
    /\ rewrites evs = []
    /\ stdin_pos (world s') = S (stdin_pos (world s))
    /\ disk_config (world s') = disk_config (world s).
Proof.
  intros Hcfg Ho line Hbad.
  assert (Hne : line <> "") by (intros E; by rewrite E in Hbad).
  pose proof (ensure_contains cp section) as Hc1.
  pose proof (ensure_offers cp section section key) as Hoff1.
  assert (Hset : setitem (ensure cp section) section key line
                 = Raise (ValueError line)).
  { rewrite setitem_contained by done. unfold configparser.set.
    rewrite bool_decide_eq_false_2 by done. by rewrite Hbad. }
  subst line. unfold typed_or_default in *.
  unfold readConfigItem. cbn. rewrite Hcfg. cbn.
  unfold ensure in *.
  destruct (contains cp section) eqn:Hc; cbn; rewrite ?Hcfg; cbn;
    rewrite has_option_offers by done; rewrite ?Hoff1, Ho; cbn;
    case_bool_decide; cbn; rewrite ?Hcfg; cbn; rewrite Hset; cbn;
    eexists _, _; (split; [reflexivity|]); cbn;
    split_and!; try done; rewrite <- ?app_assoc; reflexivity.
Qed.

Lemma readConfigItem_refuses_percent_witness :
  let env := Sample.env_percent in
  let s := Sample.unconfigured in
  exists s' evs,
    readConfigItem env "DEFAULT" "server" "Trail Life Connect website: "
      "www.traillifeconnect.com" s
    = (Raise (ValueError "a%b"), s')
    /\ attrs (obj s') = attrs (obj s)
    /\ config (obj s') = Some (ensure configparser.empty "DEFAULT")
    /\ configChanged (obj s') = configChanged (obj s)
    /\ trace (world s') = trace (world s) ++ evs
    /\ prompts evs = ["Trail Life Connect website: "]
    /\ rewrites evs = []
    /\ stdin_pos (world s') = S (stdin_pos (world s))
    /\ disk_config (world s') = disk_config (world s).
Proof.
  apply (readConfigItem_refuses_percent Sample.env_percent "DEFAULT" "server"
           "Trail Life Connect website: " "www.traillifeconnect.com"
           Sample.unconfigured configparser.empty).
  - reflexivity.
  - vm_compute. reflexivity.
  - vm_compute. reflexivity.
Defined.

#[local] Instance untouched_refl : Reflexive file_untouched.
Proof.
  intros s. split; [done|]. split; [done|]. exists []. by rewrite app_nil_r.
Qed.

#[local] Instance untouched_trans : Transitive file_untouched.
Proof.
  intros s1 s2 s3 (Hd1 & Ha1 & evs1 & Ht1 & Hf1) (Hd2 & Ha2 & evs2 & Ht2 & Hf2).
  split; [congruence|]. split; [congruence|].
  exists (evs1 ++ evs2). rewrite Ht2, Ht1, app_assoc.
  split; [done|]. by rewrite rewrites_app, Hf1, Hf2.
Qed.

Ltac untouched_prim :=
  let H := fresh in
  intros ? ? ? H; cbn in H; branches H;
  first
    [ reflexivity
    | split; [reflexivity|]; split; [reflexivity|]; cbn;
      first
        [ exists []; split; [by rewrite app_nil_r|reflexivity]
        | eexists; split; [rewrite <- ?app_assoc; reflexivity|done] ] ].

Create HintDb untouched.

Lemma untouched_self : preserves file_untouched self.
Proof. untouched_prim. Qed.
Lemma untouched_logging_info line : preserves file_untouched (logging_info line).
Proof. untouched_prim. Qed.
Lemma untouched_getattr name : preserves file_untouched (getattr name).
Proof. untouched_prim. Qed.
Lemma untouched_setattr name v : preserves file_untouched (setattr name v).
Proof. untouched_prim. Qed.
Lemma untouched_self_config : preserves file_untouched self_config.
Proof. untouched_prim. Qed.
Lemma untouched_set_config cp : preserves file_untouched (set_config cp).
Proof. untouched_prim. Qed.
Lemma untouched_self_configChanged : preserves file_untouched self_configChanged.
Proof. untouched_prim. Qed.
Lemma untouched_set_configChanged b :
  preserves file_untouched (set_configChanged b).
Proof. untouched_prim. Qed.
Lemma untouched_input env text : preserves file_untouched (input env text).
Proof. untouched_prim. Qed.
Lemma untouched_config_read env : preserves file_untouched (config_read env).
Proof. untouched_prim. Qed.

#[local] Hint Resolve untouched_self untouched_logging_info untouched_getattr
  untouched_setattr untouched_self_config untouched_set_config
  untouched_self_configChanged untouched_set_configChanged untouched_input
  untouched_config_read : untouched.

Lemma untouched_readConfigItem env section key text dflt :
  preserves file_untouched (readConfigItem env section key text dflt).
Proof. unfold readConfigItem. preserves_with untouched. Qed.

Lemma untouched_setURLs : preserves file_untouched setURLs.
Proof. unfold setURLs. preserves_with untouched. Qed.

#[local] Hint Resolve untouched_readConfigItem untouched_setURLs : untouched.







(** ** The browser's life *)

Lemma browser_lifecycle_app evs1 evs2 :
  browser_lifecycle (evs1 ++ evs2)
  = browser_lifecycle evs1 ++ browser_lifecycle evs2.
Proof. apply flat_map_app. Qed.

Lemma offline_browser_lifecycle evs :
  Forall (fun e => offline_event e = true) evs -> browser_lifecycle evs = [].
Proof.
  induction 1 as [|e evs He _ IH]; [done|].
  cbn. fold (browser_lifecycle evs). rewrite IH. by destruct e.
Qed.

#[local] Instance same_session_refl : Reflexive same_session.
Proof.
  intros s. split; [done|]. split; [done|]. exists []. by rewrite app_nil_r.
Qed.

#[local] Instance same_session_trans : Transitive same_session.
Proof.
  intros s1 s2 s3 (Hd1 & Ha1 & evs1 & Ht1 & Hf1) (Hd2 & Ha2 & evs2 & Ht2 & Hf2).
  split; [congruence|]. split; [congruence|].
  exists (evs1 ++ evs2). rewrite Ht2, Ht1, app_assoc.
  split; [done|]. by rewrite browser_lifecycle_app, Hf1, Hf2.
Qed.

Ltac session_prim :=
  let H := fresh in
  intros ? ? ? H; cbn in H; branches H;
  first
    [ reflexivity
    | split; [reflexivity|]; split; [reflexivity|]; cbn;
      first
        [ exists []; split; [by rewrite app_nil_r|reflexivity]
        | eexists; split; [rewrite <- ?app_assoc; reflexivity|done] ] ].

Create HintDb session.

Lemma session_self : preserves same_session self.
Proof. session_prim. Qed.
Lemma session_the_world : preserves same_session the_world.
Proof. session_prim. Qed.
Lemma session_emit e :
  browser_lifecycle [e] = [] -> preserves same_session (emit e).
Proof. intros He. session_prim. Qed.
Lemma session_print line : preserves same_session (print line).
Proof. by apply session_emit. Qed.
Lemma session_sleep secs : preserves same_session (sleep secs).
Proof. by apply session_emit. Qed.
Lemma session_getattr name : preserves same_session (getattr name).
Proof. session_prim. Qed.
Lemma session_self_attendees : preserves same_session self_attendees.
Proof. session_prim. Qed.
Lemma session_set_attendees l : preserves same_session (set_attendees l).
Proof. session_prim. Qed.
Lemma session_self_driver method : preserves same_session (self_driver method).
Proof. session_prim. Qed.
Lemma session_getpass env text : preserves same_session (getpass env text).
Proof. session_prim. Qed.
Lemma session_load_workbook env path :
  preserves same_session (load_workbook env path).
Proof. session_prim. Qed.
Lemma session_stimulate env e :
  browser_lifecycle [e] = [] -> preserves same_session (stimulate env e).
Proof. intros He. session_prim. Qed.
Lemma session_driver_get env url : preserves same_session (driver_get env url).
Proof. session_prim. Qed.
Lemma session_driver_current_url : preserves same_session driver_current_url.
Proof. session_prim. Qed.
Lemma session_find_element by_ sel :
  preserves same_session (find_element by_ sel).
Proof. session_prim. Qed.
Lemma session_find_parent e : preserves same_session (find_parent e).
Proof. session_prim. Qed.
Lemma session_get_attribute_value e :
  preserves same_session (get_attribute_value e).
Proof. session_prim. Qed.
Lemma session_element_send_keys env e text :
  preserves same_session (element_send_keys env e text).
Proof. by apply session_stimulate. Qed.
Lemma session_element_click env e :
  preserves same_session (element_click env e).
Proof. by apply session_stimulate. Qed.
Lemma session_scrollFirefox env e :
  preserves same_session (scrollFirefox env e).
Proof. session_prim. Qed.
Lemma session_WebDriverWait env timeout :
  preserves same_session (WebDriverWait env timeout).
Proof. session_prim. Qed.
Lemma session_until_clickable secs by_ sel :
  preserves same_session (until_clickable secs by_ sel).
Proof. session_prim. Qed.
Lemma session_until_error_or_dashboard env secs dashboard :
  preserves same_session (until_error_or_dashboard env secs dashboard).
Proof. session_prim. Qed.
Lemma session_Select e : preserves same_session (Select e).
Proof. session_prim. Qed.
Lemma session_first_selected_option e :
  preserves same_session (first_selected_option e).
Proof. session_prim. Qed.

#[local] Hint Resolve session_self session_the_world session_print
  session_sleep session_getattr session_self_attendees session_set_attendees
  session_self_driver session_getpass session_load_workbook
  session_driver_get session_driver_current_url session_find_element
  session_find_parent session_get_attribute_value session_element_send_keys
  session_element_click session_scrollFirefox session_WebDriverWait
  session_until_clickable session_until_error_or_dashboard session_Select
  session_first_selected_option : session.

Lemma session_perform env actions : preserves same_session (perform env actions).
Proof.
  induction actions; cbn; preserves_with session.
  by apply session_stimulate.
Qed.

Lemma session_except {A} (m h : M A) :
  preserves same_session m -> preserves same_session h ->
  preserves same_session (except_TimeoutException m h).
Proof.
  intros Hm Hh s r s'. cbn.
  destruct (m s) as [[a|e|] s1] eqn:Hrun; intros H.
  - simplify_eq. by eapply Hm.
  - destruct e; try (simplify_eq; by eapply Hm).
    etrans; [by eapply Hm|by eapply Hh].
  - simplify_eq. by eapply Hm.
Qed.

Lemma session_append_cells cells : preserves same_session (append_cells cells).
Proof. induction cells; cbn; preserves_with session. Qed.

#[local] Hint Resolve session_perform session_append_cells : session.

Lemma session_login_while env fuel pass btn c :
  preserves same_session (login_while env fuel pass btn c).
Proof.
  revert c. induction fuel as [|fuel IH]; intros c; cbn.
  - intros s r s' [= _ <-]. reflexivity.
  - preserves_with session.
    apply session_except; preserves_with session.
Qed.

Lemma session_loadAttendanceData env :
  preserves same_session (loadAttendanceData env).
Proof.
  unfold loadAttendanceData. preserves_with session.
  all: by apply session_emit.
Qed.

Lemma session_markAttendee env sev n a :
  preserves same_session (markAttendee env sev n a).
Proof. unfold markAttendee. preserves_with session. Qed.

#[local] Hint Resolve session_markAttendee : session.

Lemma session_markAttendees env sev n roster :
  preserves same_session (markAttendees env sev n roster).
Proof.
  revert n. induction roster; intros n; cbn; preserves_with session.
Qed.

Lemma session_select_event env : preserves same_session (select_event env).
Proof. unfold select_event. preserves_with session. Qed.

#[local] Hint Resolve session_markAttendees session_select_event : session.

Lemma session_recordAttendance env :
  preserves same_session (recordAttendance env).
Proof. unfold recordAttendance. preserves_with session. Qed.

Lemma session_logout env : preserves same_session (logout env).
Proof.
  unfold logout. preserves_with session. by apply session_emit.
Qed.

Ltac names_browser :=
  unfold named_browser;
  repeat match goal with
         | H : bool_decide _ = true |- _ => apply bool_decide_eq_true in H
         | H : bool_decide _ = false |- _ => apply bool_decide_eq_false in H
         end;
  repeat case_bool_decide; simplify_eq; done.

(** [login] starts at most one browser, the one the browser setting
    names, and keeps it as the driver. *)
Lemma open_login_form_lifecycle env (s : Sys) r s1 :
  open_login_form env s = (r, s1) ->
  attrs (obj s1) = attrs (obj s)
  /\ exists evs,
       trace (world s1) = trace (world s) ++ evs
       /\ (driver (obj s1) = driver (obj s) /\ browser_lifecycle evs = []
           \/ exists browser,
                attrs (obj s) !! "browser" = Some browser
                /\ driver (obj s1) = Some (named_browser browser)
                /\ browser_lifecycle evs = [Launch (named_browser browser)]).
Proof.
  unfold open_login_form. cbn. intros H.
  branches H; cbn; (split; [reflexivity|]);
    first
      [ exists []; split; [by rewrite app_nil_r|]; left; split; reflexivity
      | eexists; split; [rewrite <- ?app_assoc; reflexivity|];
        first
          [ left; split; reflexivity
          | right; eexists; split; [reflexivity|];
            split; cbn; repeat f_equal; names_browser ] ].
Qed.

Lemma launch_then_session (s s1 s2 : Sys) :
  at_most_one_launch s s1 -> same_session s1 s2 -> at_most_one_launch s s2.
Proof.
  intros (Ha1 & evs1 & Ht1 & Hcase) (Hd2 & Ha2 & evs2 & Ht2 & Hq2).
  split; [congruence|].
  exists (evs1 ++ evs2). rewrite Ht2, Ht1, app_assoc. split; [done|].
  rewrite browser_lifecycle_app, Hq2, app_nil_r, Hd2.
  destruct Hcase as [[Hd1 Hq1]|(browser & Hb & Hd1 & Hq1)]; [by left|].
  right. by exists browser.
Qed.

Lemma login_lifecycle env fuel (s : Sys) r s2 :
  login env fuel s = (r, s2) -> at_most_one_launch s s2.
Proof.
  unfold login. rewrite bind_run.
  destruct (open_login_form env s) as [r1 s1] eqn:Hform.
  apply open_login_form_lifecycle in Hform.
  destruct r1 as [form| |]; [|by intros [= <- <-]..].
  intros Hloop. apply session_login_while in Hloop.
  by eapply launch_then_session.
Qed.

Lemma session_after_login env :
  preserves same_session
    (sleep 5;; loadAttendanceData env;; recordAttendance env;; sleep 5;;
     logout env).
Proof.
  pose proof (session_loadAttendanceData env).
  pose proof (session_recordAttendance env).
  pose proof (session_logout env).
  preserves_with session.
Qed.

Lemma main_lifecycle env fuel (s : Sys) r s' :
  main env fuel s = (r, s') ->
  exists evs,
    trace (world s') = trace (world s) ++ evs
    /\ (driver (obj s') = None /\ browser_lifecycle evs = []
        \/ exists browser,
             attrs (obj s') !! "browser" = Some browser
             /\ driver (obj s') = Some (named_browser browser)
             /\ browser_lifecycle evs = [Launch (named_browser browser)]).
Proof.
  unfold main. rewrite bind_run.
  destruct (resolve_and_load env s) as [r1 s1] eqn:Hload.
  apply resolve_and_load_offline in Hload as (Hd1 & evs1 & Ht1 & Hoff).
  apply offline_browser_lifecycle in Hoff.
  assert (Hrest : at_most_one_launch s1 s' ->
            exists evs,
              trace (world s') = trace (world s) ++ evs
              /\ (driver (obj s') = None /\ browser_lifecycle evs = []
                  \/ exists browser,
                       attrs (obj s') !! "browser" = Some browser
                       /\ driver (obj s') = Some (named_browser browser)
                       /\ browser_lifecycle evs
                          = [Launch (named_browser browser)])).
  { intros (Ha & evs & Ht & Hcase).
    exists (evs1 ++ evs). rewrite Ht, Ht1, app_assoc. split; [done|].
    rewrite browser_lifecycle_app, Hoff. cbn [app].
    destruct Hcase as [[Hd Hq]|(browser & Hb & Hd & Hq)].
    - left. split; [congruence|done].
    - right. exists browser. rewrite Ha. done. }
  assert (Hhere : at_most_one_launch s1 s1).
  { split; [done|]. exists []. rewrite app_nil_r. split; [done|]. by left. }
  destruct r1 as [count| |];
    [|intros [= <- <-]; by apply Hrest..].
  case_bool_decide.
  - intros Hrun. apply session_print in Hrun. apply Hrest.
    by eapply launch_then_session.
  - rewrite bind_run. destruct (login env fuel s1) as [r2 s2] eqn:Hlogin.
    apply login_lifecycle in Hlogin.
    destruct r2 as [[|]| |]; [|by intros [= <- <-]; apply Hrest..].
    intros Hrun. apply session_after_login in Hrun. apply Hrest.
    by eapply launch_then_session.
Qed.

(** X13. The browser's life over the whole script, however [main] ends.  The
    script starts at most one browser.  When it starts none, it quits
    none.  When it starts one, that is Chrome or Edge when the browser
    setting is exactly that name and Firefox for any other value, and
    quitting it is the last thing the script does. *)
Theorem script_browser_lifecycle env fuel (s : Sys) :
  let s' := (script env fuel s).2 in
  exists evs,
    trace (world s') = trace (world s) ++ evs
    /\ (driver (obj s') = None /\ browser_lifecycle evs = []
        \/ exists browser pre,
             attrs (obj s') !! "browser" = Some browser
             /\ driver (obj s') = Some (named_browser browser)
             /\ evs = pre ++ [DriverQuit]
             /\ browser_lifecycle pre = [Launch (named_browser browser)]).
Proof.
  unfold script.
  destruct (main env fuel s) as [r s1] eqn:Hmain.
  apply main_lifecycle in Hmain as (evs & Ht & Hcase).
  unfold __del__. cbn.
  destruct Hcase as [[Hd Hq]|(browser & Hb & Hd & Hq)]; rewrite Hd; cbn.
  - exists evs. split; [done|]. left. by rewrite Hd.
  - exists (evs ++ [DriverQuit]). rewrite Ht, app_assoc. split; [done|].
    right. exists browser, evs. by rewrite Hd.
Qed.
